(** * phase-o-matic: [download_era] (src/phase_o_matic/download.py)

    A shallow embedding of the ERA5 download wrapper and the properties
    that its specification states about it.

    The function validates its inputs, builds the request dictionary for
    the CDS retrieval client, derives the output path and either calls
    the client or reuses a file that already exists.  The model follows
    the Python text line by line:

    - coordinates are IEEE binary64 numbers ([PrimFloat.float]), with
      [np.maximum], [np.minimum], [abs] and [-] written on them;
    - the request dictionary is a [gmap string py_value];
    - the file system, the wall clock and the calls made to the retrieval
      client form a [World] threaded through a state-and-exception monad;
    - [strftime], [pathlib]'s [stem]/[with_stem] and the [.2f] format are
      executable; what lives in other libraries and is only called here
      ([pd.to_datetime], [str] of a float, path resolution, the remote
      service) is a [Variable] of the section. *)

From Stdlib Require Import ZArith Floats String Ascii List Bool Lia.
From Stdlib Require Import DecimalString DecimalPos DecimalN.
From stdpp Require Import gmap strings list.

Local Open Scope string_scope.
Local Open Scope list_scope.
Local Open Scope Z_scope.

(** ** Decimal printing *)

Module Dec.

(** Digits of a natural number, as Python prints an [int]. *)
Definition of_N (n : N) : string :=
  NilZero.string_of_uint (N.to_uint n).

Definition of_Z (z : Z) : string :=
  match z with
  | Zneg p => "-" +:+ of_N (Npos p)
  | _ => of_N (Z.to_N z)
  end.

Fixpoint zeros (k : nat) : string :=
  match k with
  | O => ""
  | S k' => String "0" (zeros k')
  end.

(** [%0<width>d]: pad on the left with zeros up to [width] characters. *)
Definition pad (width : nat) (z : Z) : string :=
  let s := of_Z z in
  zeros (width - String.length s) +:+ s.

End Dec.

(** ** Timestamps *)

(** The fields of a [pd.Timestamp] that the function reads.  The time
    zone is not a field: [datetime.now(date.tzinfo)] is taken in the zone
    of the timestamp, so both sides of the comparison are wall-clock
    readings of the same zone. *)
Record Timestamp := mkTimestamp {
  year : Z;
  month : Z;
  day : Z;
  hour : Z;
  minute : Z;
  second : Z;
  nanosecond : Z
}.

Definition ts_fields (t : Timestamp) : list Z :=
  [year t; month t; day t; hour t; minute t; second t; nanosecond t].

(** Lexicographic order on field lists: chronological order. *)
Fixpoint lex_ltb (a b : list Z) : bool :=
  match a, b with
  | x :: a', y :: b' => (x <? y) || ((x =? y) && lex_ltb a' b')
  | _, _ => false
  end.

(** [a < b] on timestamps. *)
Definition ts_ltb (a b : Timestamp) : bool :=
  lex_ltb (ts_fields a) (ts_fields b).

(** [date.strftime('%Y-%m-%d')] *)
Definition strftime_date (t : Timestamp) : string :=
  Dec.pad 4 (year t) +:+ "-" +:+ Dec.pad 2 (month t) +:+ "-" +:+ Dec.pad 2 (day t).

(** [date.strftime('%H:00')] *)
Definition strftime_time (t : Timestamp) : string :=
  Dec.pad 2 (hour t) +:+ ":00".

(** [date.strftime('%Y-%m-%dT%H:00')] *)
Definition strftime_iso_hour (t : Timestamp) : string :=
  strftime_date t +:+ "T" +:+ strftime_time t.

(** ** Coordinates: binary64 *)

Module Coord.

Definition is_nan (x : float) : bool := negb (PrimFloat.eqb x x).

(** [np.maximum(a, b)]: the larger one, a NaN wins. *)
Definition np_maximum (a b : float) : float :=
  if is_nan a then a
  else if is_nan b then b
  else if PrimFloat.ltb a b then b else a.

(** [np.minimum(a, b)]: the smaller one, a NaN wins. *)
Definition np_minimum (a b : float) : float :=
  if is_nan a then a
  else if is_nan b then b
  else if PrimFloat.ltb b a then b else a.

(** [lo < x and x < hi] *)
Definition strictly_between (lo hi x : float) : bool :=
  PrimFloat.ltb lo x && PrimFloat.ltb x hi.

(** Nearest integer to [num / den], ties to the even one. *)
Definition round_half_even (num den : Z) : Z :=
  let q := num / den in
  let r := num mod den in
  match 2 * r ?= den with
  | Lt => q
  | Gt => q + 1
  | Eq => if Z.even q then q else q + 1
  end.

(** The number of hundredths nearest to [m * 2^e]. *)
Definition hundredths (m : positive) (e : Z) : Z :=
  if 0 <=? e then Zpos m * 2 ^ e * 100
  else round_half_even (Zpos m * 100) (2 ^ (- e)).

Definition sign_str (s : bool) : string := if s then "-" else "".

(** [f'{x:.2f}']: the exact binary value rounded correctly to two
    decimals; the sign bit is printed also when the digits are zero. *)
Definition format_2f (x : float) : string :=
  match Prim2SF x with
  | S754_nan => "nan"
  | S754_infinity s => sign_str s +:+ "inf"
  | S754_zero s => sign_str s +:+ "0.00"
  | S754_finite s m e =>
      let h := hundredths m e in
      sign_str s +:+ Dec.of_Z (h / 100) +:+ "." +:+ Dec.pad 2 (h mod 100)
  end.

End Coord.

(** ** Strings and paths *)

(** [sep.join(l)] *)
Fixpoint join (sep : string) (l : list string) : string :=
  match l with
  | [] => ""
  | [x] => x
  | x :: l' => x +:+ sep +:+ join sep l'
  end.

(** [s.rfind(c)]: the index of the last occurrence of [c], if any. *)
Fixpoint rfind (c : ascii) (s : string) : option nat :=
  match s with
  | EmptyString => None
  | String a s' =>
      match rfind c s' with
      | Some i => Some (S i)
      | None => if Ascii.eqb a c then Some 0%nat else None
      end
  end.

(** A path as [pathlib] holds it: its [parts], the root ["/"] first when
    the path is absolute. *)
Definition Path : Type := list string.

Module Pathlib.

(** [str(p)] *)
Definition str (p : Path) : string :=
  match p with
  | "/" :: rest => "/" +:+ join "/" rest
  | _ => join "/" p
  end.

(** [p.joinpath(child)] for a single component. *)
Definition joinpath (p : Path) (child : string) : Path := p ++ [child].

(** [p.name] *)
Definition name (p : Path) : string := List.last p "".

(** The position of the dot that starts the suffix of a file name:
    the last dot, unless it is the first or the last character. *)
Definition suffix_dot (nm : string) : option nat :=
  match rfind "." nm with
  | Some i =>
      if ((0 <? i) && (i <? String.length nm - 1))%nat then Some i else None
  | None => None
  end.

(** [p.suffix] *)
Definition suffix (p : Path) : string :=
  let nm := name p in
  match suffix_dot nm with
  | Some i => String.substring i (String.length nm - i) nm
  | None => ""
  end.

(** [p.stem] *)
Definition stem (p : Path) : string :=
  let nm := name p in
  match suffix_dot nm with
  | Some i => String.substring 0 i nm
  | None => nm
  end.

(** [p.with_name(nm)] *)
Definition with_name (p : Path) (nm : string) : Path :=
  List.removelast p ++ [nm].

(** [p.with_stem(st)] *)
Definition with_stem (p : Path) (st : string) : Path :=
  with_name p (st +:+ suffix p).

End Pathlib.

(** ** Arguments of [download_era] *)

(** [date: pd.Timestamp], or a string still to be parsed. *)
Inductive date_arg :=
  | DateStr (s : string)
  | DateTs (t : Timestamp).

(** [out_dir: Union[str, Path]], as written by the caller. *)
Inductive dir_arg :=
  | DirStr (s : string)
  | DirPath (p : Path).

(** What the function uses of a [shapely] polygon: whether it is empty
    (its truth value is [not is_empty]) and its [bounds], in the order
    (minx, miny, maxx, maxy). *)
Record Polygon := mkPolygon {
  is_empty : bool;
  bounds : float * float * float * float
}.

(** [if subset:] *)
Definition truthy (subset : option Polygon) : bool :=
  match subset with
  | None => false
  | Some g => negb (is_empty g)
  end.

(** ** The request dictionary *)

Inductive py_value :=
  | PyStr (s : string)
  | PyList (l : list string).

Abbreviation Request := (gmap string py_value).

(** One call [c.retrieve(name, request, target)]. *)
Record Call := mkCall {
  call_name : string;
  call_request : Request;
  call_target : Path
}.

(** ** World, exceptions and the monad *)

Record World := mkWorld {
  files : gset Path;      (** the paths that exist *)
  now : Timestamp;        (** the reading of the clock *)
  calls : list Call       (** the retrievals requested so far, oldest first *)
}.

Inductive exn :=
  | AssertionError (msg : string)   (** a failed [assert] *)
  | DateParseError (s : string)     (** raised by [pd.to_datetime] *)
  | ClientError                     (** raised by [cdsapi.Client()] *)
  | RetrievalError.                 (** raised by [c.retrieve] *)

Definition M (A : Type) : Type := World → (exn + A) * World.

#[global] Instance M_ret : MRet M := λ A (a : A) w, (inr a, w).

#[global] Instance M_bind : MBind M := λ A B (f : A → M B) (m : M A) w,
  match m w with
  | (inr a, w') => f a w'
  | (inl e, w') => (inl e, w')
  end.

Definition raise {A} (e : exn) : M A := λ w, (inl e, w).

(** [assert cond, msg] *)
Definition assert_ (cond : bool) (msg : string) : M unit :=
  if cond then mret tt else raise (AssertionError msg).

(** [p.exists()] *)
Definition path_exists (p : Path) : M bool :=
  λ w, (inr (bool_decide (p ∈ files w)), w).

(** [datetime.now(tz)] *)
Definition datetime_now : M Timestamp := λ w, (inr (now w), w).

(** The 37 pressure levels of ERA5, in millibars. *)
Definition era_pressure_lvls : list string :=
  ["1";"2";"3";"5";"7";"10";"20";"30";"50";"70";"100";"125";
   "150";"175";"200";"225";"250";"300";"350";"400";"450";"500";"550";"600";"650";
   "700";"750";"775";"800";"825";"850";"875";"900";"925";"950";"975";"1000"].

(** The block under [if LOS:], with each name rebound in turn as the
    four assignments do; the result is in the order (w, s, e, n). *)
Definition los_expand (w s e n : float) : float * float * float * float :=
  let w := Coord.np_maximum (w - abs (e - w))%float (-180)%float in
  let e := Coord.np_minimum (e + abs (e - w))%float 180%float in
  let s := Coord.np_maximum (s - abs (n - s))%float (-90)%float in
  let n := Coord.np_minimum (n + abs (n - s))%float 90%float in
  (w, s, e, n).

(** ** What the function calls outside this repository *)

Class Platform := {
  (** [Path(s)] *)
  Path_of_str : string → Path;
  (** [p.expanduser()] *)
  expanduser : Path → Path;
  (** [p.resolve()] *)
  resolve : Path → Path;
  (** [pd.to_datetime(s)]; [None] when it raises *)
  to_datetime : string → option Timestamp;
  (** [str(x)] of a float, also what [f'{x}'] prints *)
  str_float : float → string;
  (** whether [cdsapi.Client()] finds a usable configuration *)
  client_ok : World → bool;
  (** what the remote service does to the file system for one call, and
      whether the call returns ([true]) or raises ([false]) *)
  cds_retrieve : Call → gset Path → gset Path * bool
}.

Section DownloadEra.

Context {P : Platform}.

(** [c = cdsapi.Client()] *)
Definition Client : M unit :=
  λ w, if client_ok w then (inr tt, w) else (inl ClientError, w).

(** [c.retrieve(name, request, target=...)]: the call is recorded, the
    service acts on the files, and its failure is raised. *)
Definition retrieve (name : string) (request : Request) (target : Path) : M unit :=
  λ w,
    let c := mkCall name request target in
    let '(fs, ok) := cds_retrieve c (files w) in
    let w' := mkWorld fs (now w) (calls w ++ [c]) in
    if ok then (inr tt, w') else (inl RetrievalError, w').

(** [pd.to_datetime(s)] *)
Definition parse_date (s : string) : M Timestamp :=
  match to_datetime s with
  | Some t => mret t
  | None => raise (DateParseError s)
  end.

Definition bound_msg (which : string) (x : float) : string :=
  which +:+ " bound: " +:+ str_float x +:+ " is outside of globe".

(** Lines 25 to 82 of [download_era]: the checks, the request
    dictionary and the output path. *)
Definition prepare (date : date_arg) (out_dir : dir_arg)
    (subset : option Polygon) (humid_param : string) (LOS : bool)
    : M (Request * Path) :=
  has_rc ← path_exists (expanduser (Path_of_str "~/.cdsapirc"));
  assert_ has_rc "Must sign up for ERA5 account and save key to .cdsapric file";;
  Client;;
  let out_dir :=
    match out_dir with DirStr s => Path_of_str s | DirPath p => p end in
  let out_dir := resolve (expanduser out_dir) in
  has_dir ← path_exists out_dir;
  assert_ has_dir
    ("Provided directory: " +:+ Pathlib.str out_dir +:+ " does not exist.");;
  date ← match date with DateStr s => parse_date s | DateTs t => mret t end;
  current ← datetime_now;
  assert_ (ts_ltb date current) "provided date is in the future";;
  assert_ (1939 <? year date) "provided date is before january 1940";;
  let indict : Request :=
    <["time" := PyStr (strftime_time date)]>
    (<["date" := PyStr (strftime_date date)]>
    (<["pressure_level" := PyList era_pressure_lvls]>
    (<["variable" := PyList ["geopotential"; "temperature"; humid_param]]>
    (<["format" := PyStr "netcdf"]>
    (<["product_type" := PyStr "reanalysis"]> ∅))))) in
  let out_fp :=
    Pathlib.joinpath out_dir ("ERA5_" +:+ strftime_iso_hour date +:+ ".nc") in
  match (if truthy subset then subset else None) with
  | Some g =>
      let '(w, s, e, n) := bounds g in
      assert_ (Coord.strictly_between (-180) 180 w) (bound_msg "West" w);;
      assert_ (Coord.strictly_between (-180) 180 e) (bound_msg "East" e);;
      assert_ (Coord.strictly_between (-90) 90 n) (bound_msg "North" n);;
      assert_ (Coord.strictly_between (-90) 90 s) (bound_msg "South" s);;
      let '(w, s, e, n) := if LOS then los_expand w s e n else (w, s, e, n) in
      let indict :=
        <["area" := PyStr (join "/" (map str_float [n; w; s; e]))]> indict in
      let out_fp :=
        Pathlib.with_stem out_fp
          (Pathlib.stem out_fp +:+ "_" +:+
           join "_" (map Coord.format_2f [w; s; e; n])) in
      mret (indict, out_fp)
  | None => mret (indict, out_fp)
  end.

(** [download_era(date, out_dir, subset, humid_param, LOS, overwrite)] *)
Definition download_era (date : date_arg) (out_dir : dir_arg)
    (subset : option Polygon) (humid_param : string) (LOS overwrite : bool)
    : M Path :=
  '(indict, out_fp) ← prepare date out_dir subset humid_param LOS;
  target_exists ← path_exists out_fp;
  if negb target_exists || overwrite then
    retrieve "reanalysis-era5-pressure-levels" indict out_fp;;
    mret out_fp
  else
    mret out_fp.

End DownloadEra.

(** ** What [prepare] checks and what it builds *)

Section Derived.

Context {P : Platform}.

(** [Path('~/.cdsapirc').expanduser()] *)
Definition rc_path : Path := expanduser (Path_of_str "~/.cdsapirc").

(** [out_dir] after lines 29 and 32. *)
Definition resolved_dir (out_dir : dir_arg) : Path :=
  resolve (expanduser
    match out_dir with DirStr s => Path_of_str s | DirPath p => p end).

(** [date] after line 43, when [pd.to_datetime] does not raise. *)
Definition parsed_date (date : date_arg) : option Timestamp :=
  match date with DateStr s => to_datetime s | DateTs t => Some t end.

(** Lines 25, 26 and 35. *)
Definition env_ok (out_dir : dir_arg) (w : World) : bool :=
  bool_decide (rc_path ∈ files w) && client_ok w
  && bool_decide (resolved_dir out_dir ∈ files w).

(** Lines 46 and 47. *)
Definition date_ok (t : Timestamp) (w : World) : bool :=
  ts_ltb t (now w) && (1939 <? year t).

(** Lines 66 to 69, for a subset that is used. *)
Definition bounds_ok (subset : option Polygon) : bool :=
  match (if truthy subset then subset else None) with
  | Some g =>
      let '(w, s, e, n) := bounds g in
      Coord.strictly_between (-180) 180 w && Coord.strictly_between (-180) 180 e
      && Coord.strictly_between (-90) 90 n && Coord.strictly_between (-90) 90 s
  | None => true
  end.

(** Every check of the function passes. *)
Definition inputs_ok (date : date_arg) (out_dir : dir_arg)
    (subset : option Polygon) (w : World) : bool :=
  env_ok out_dir w
  && match parsed_date date with Some t => date_ok t w | None => false end
  && bounds_ok subset.

(** The values of [w, s, e, n] at lines 79 and 82. *)
Definition final_bounds (subset : option Polygon) (LOS : bool)
    : option (float * float * float * float) :=
  match (if truthy subset then subset else None) with
  | Some g =>
      let '(w, s, e, n) := bounds g in
      Some (if LOS then los_expand w s e n else (w, s, e, n))
  | None => None
  end.

(** [indict] as line 50 builds it. *)
Definition base_request (t : Timestamp) (humid_param : string) : Request :=
  <["time" := PyStr (strftime_time t)]>
  (<["date" := PyStr (strftime_date t)]>
  (<["pressure_level" := PyList era_pressure_lvls]>
  (<["variable" := PyList ["geopotential"; "temperature"; humid_param]]>
  (<["format" := PyStr "netcdf"]>
  (<["product_type" := PyStr "reanalysis"]> ∅))))).

(** [indict] as it is passed to [c.retrieve]. *)
Definition request_of (t : Timestamp) (subset : option Polygon)
    (humid_param : string) (LOS : bool) : Request :=
  match final_bounds subset LOS with
  | Some (w, s, e, n) =>
      <["area" := PyStr (join "/" (map str_float [n; w; s; e]))]>
        (base_request t humid_param)
  | None => base_request t humid_param
  end.

(** What line 82 adds to the stem. *)
Definition bounds_suffix (subset : option Polygon) (LOS : bool) : string :=
  match final_bounds subset LOS with
  | Some (w, s, e, n) => "_" +:+ join "_" (map Coord.format_2f [w; s; e; n])
  | None => ""
  end.

(** [out_fp] as it is returned. *)
Definition out_fp_of (out_dir : dir_arg) (t : Timestamp)
    (subset : option Polygon) (LOS : bool) : Path :=
  Pathlib.joinpath (resolved_dir out_dir)
    ("ERA5_" +:+ strftime_iso_hour t +:+ bounds_suffix subset LOS +:+ ".nc").

(** The exception of lines 66 to 69, if one is raised. *)
Definition bounds_failure (subset : option Polygon) : option exn :=
  match (if truthy subset then subset else None) with
  | Some g =>
      let '(w, s, e, n) := bounds g in
      if negb (Coord.strictly_between (-180) 180 w)
      then Some (AssertionError (bound_msg "West" w))
      else if negb (Coord.strictly_between (-180) 180 e)
      then Some (AssertionError (bound_msg "East" e))
      else if negb (Coord.strictly_between (-90) 90 n)
      then Some (AssertionError (bound_msg "North" n))
      else if negb (Coord.strictly_between (-90) 90 s)
      then Some (AssertionError (bound_msg "South" s))
      else None
  | None => None
  end.

(** Line 43: the timestamp, or the exception of [pd.to_datetime]. *)
Definition date_result (date : date_arg) : exn + Timestamp :=
  match date with
  | DateStr s =>
      match to_datetime s with
      | Some t => inr t
      | None => inl (DateParseError s)
      end
  | DateTs t => inr t
  end.

(** The checks in the order of the source: the first exception, or
    the timestamp when all pass. *)
Definition validate (date : date_arg) (out_dir : dir_arg)
    (subset : option Polygon) (w : World) : exn + Timestamp :=
  if negb (bool_decide (rc_path ∈ files w)) then
    inl (AssertionError
           "Must sign up for ERA5 account and save key to .cdsapric file")
  else if negb (client_ok w) then inl ClientError
  else if negb (bool_decide (resolved_dir out_dir ∈ files w)) then
    inl (AssertionError
           ("Provided directory: " +:+ Pathlib.str (resolved_dir out_dir)
            +:+ " does not exist."))
  else
    match date_result date with
    | inl e => inl e
    | inr t =>
        if negb (ts_ltb t (now w)) then
          inl (AssertionError "provided date is in the future")
        else if negb (1939 <? year t) then
          inl (AssertionError "provided date is before january 1940")
        else
          match bounds_failure subset with
          | Some e => inl e
          | None => inr t
          end
    end.

(** The call that line 86 makes for a validated timestamp. *)
Definition the_call (out_dir : dir_arg) (t : Timestamp)
    (subset : option Polygon) (humid_param : string) (LOS : bool) : Call :=
  mkCall "reanalysis-era5-pressure-levels"
    (request_of t subset humid_param LOS) (out_fp_of out_dir t subset LOS).

(** The path that [prepare] yields, or its exception. *)
Definition path_result (r : exn + Request * Path) : exn + Path :=
  match r with
  | inl e => inl e
  | inr (_, p) => inr p
  end.

End Derived.

(** ** A platform to run the model on *)

Module Demo.

(** [str] of a float whose value is a whole number, as [-30.0]; the
    examples below print no other. *)
Definition py_str (x : float) : string :=
  match Prim2SF x with
  | S754_finite s m e =>
      if 0 <=? e then Coord.sign_str s +:+ Dec.of_Z (Zpos m * 2 ^ e) +:+ ".0"
      else if Zpos m mod 2 ^ (- e) =? 0
      then Coord.sign_str s +:+ Dec.of_Z (Zpos m / 2 ^ (- e)) +:+ ".0"
      else Coord.format_2f x
  | S754_zero s => Coord.sign_str s +:+ "0.0"
  | _ => Coord.format_2f x
  end.

(** Paths are written absolute, [~] is [/home/user], there are no
    symbolic links; [pd.to_datetime] knows one string; the client is
    configured; the service writes the target file and returns. *)
#[local] Instance platform : Platform := {|
  Path_of_str s :=
    if String.eqb s "~/.cdsapirc" then ["/"; "~"; ".cdsapirc"]
    else ["/"; s];
  expanduser p :=
    match p with
    | "/" :: "~" :: rest => "/" :: "home" :: "user" :: rest
    | _ => p
    end;
  resolve p := p;
  to_datetime s :=
    if String.eqb s "2020-01-05 07:42" then Some (mkTimestamp 2020 1 5 7 42 0 0)
    else None;
  str_float := py_str;
  client_ok _ := true;
  cds_retrieve c fs := ({[ call_target c ]} ∪ fs, true)
|}.

Definition rc : Path := ["/"; "home"; "user"; ".cdsapirc"].
Definition data : Path := ["/"; "data"].

(** Credentials and [/data] exist, it is 2024-03-01 12:00. *)
Definition world0 : World :=
  mkWorld {[ rc; data ]} (mkTimestamp 2024 3 1 12 0 0 0) [].

Definition box : Polygon := mkPolygon false (-10, -5, 10, 5)%float.

(** [Polygon()]: empty, its bounds are not numbers. *)
Definition empty_polygon : Polygon := mkPolygon true (nan, nan, nan, nan).

End Demo.

(** ** A platform whose service is out of reach *)

Module Offline.

(** As [Demo.platform], but every retrieval raises and writes nothing. *)
#[local] Instance platform : Platform := {|
  Path_of_str := Path_of_str (Platform := Demo.platform);
  expanduser := expanduser (Platform := Demo.platform);
  resolve := resolve (Platform := Demo.platform);
  to_datetime := to_datetime (Platform := Demo.platform);
  str_float := str_float (Platform := Demo.platform);
  client_ok _ := true;
  cds_retrieve c fs := (fs, false)
|}.

End Offline.

(** ** Well-formed timestamps *)

(** The ranges of the calendar fields that a [pd.Timestamp] keeps and
    that [strftime] prints. *)
Definition calendar_fields_ok (t : Timestamp) : Prop :=
  0 ≤ year t < 10000 ∧ 1 ≤ month t ≤ 12 ∧ 1 ≤ day t ≤ 31 ∧ 0 ≤ hour t ≤ 23.

(** * Properties *)

(** ** The printers on examples *)

Example format_2f_ex1 : Coord.format_2f (-10)%float = "-10.00".
Proof. vm_compute. reflexivity. Qed.

Example format_2f_ex2 : Coord.format_2f (0.125)%float = "0.12".
Proof. vm_compute. reflexivity. Qed.

Example format_2f_ex3 : Coord.format_2f (0.375)%float = "0.38".
Proof. vm_compute. reflexivity. Qed.

Example format_2f_ex4 : Coord.format_2f (-0.0009765625)%float = "-0.00".
Proof. vm_compute. reflexivity. Qed.

Example format_2f_ex5 : Coord.format_2f (1234.5)%float = "1234.50".
Proof. vm_compute. reflexivity. Qed.

Example strftime_ex :
  strftime_iso_hour (mkTimestamp 2020 1 5 7 42 13 0) = "2020-01-05T07:00".
Proof. vm_compute. reflexivity. Qed.

(** ** Facts about strings and [pathlib] *)

Section StringFacts.

Lemma append_cons a (s t : string) : String a s +:+ t = String a (s +:+ t).
Proof. reflexivity. Qed.

Lemma append_assoc (s t u : string) : (s +:+ t) +:+ u = s +:+ (t +:+ u).
Proof.
  induction s as [|a s IH]; [reflexivity|].
  rewrite !append_cons. now rewrite IH.
Qed.

Lemma length_append (s t : string) :
  String.length (s +:+ t) = (String.length s + String.length t)%nat.
Proof.
  induction s as [|a s IH]; [reflexivity|].
  rewrite append_cons. cbn [String.length]. now rewrite IH.
Qed.

Lemma substring_prefix (s t : string) :
  String.substring 0 (String.length s) (s +:+ t) = s.
Proof.
  induction s as [|a s IH].
  - destruct t; reflexivity.
  - rewrite append_cons. cbn [String.length String.substring]. now rewrite IH.
Qed.

Lemma substring_all (t : string) :
  String.substring 0 (String.length t) t = t.
Proof.
  induction t as [|a t IH]; [reflexivity|].
  cbn [String.length String.substring]. now rewrite IH.
Qed.

Lemma substring_suffix (s t : string) :
  String.substring (String.length s) (String.length t) (s +:+ t) = t.
Proof.
  induction s as [|a s IH].
  - apply substring_all.
  - rewrite append_cons. cbn [String.length String.substring]. exact IH.
Qed.

(** The last [c] of [s +:+ c :: t] is the one written, when [t] has none. *)
Lemma rfind_append c (s t : string) :
  rfind c t = None →
  rfind c (s +:+ String c t) = Some (String.length s).
Proof.
  intros Ht. induction s as [|a s IH].
  - change ("" +:+ String c t) with (String c t).
    cbn [rfind]. rewrite Ht, Ascii.eqb_refl. reflexivity.
  - rewrite append_cons. cbn [rfind String.length]. now rewrite IH.
Qed.

End StringFacts.

Section PathFacts.

Lemma name_joinpath (d : Path) (nm : string) :
  Pathlib.name (Pathlib.joinpath d nm) = nm.
Proof. apply last_last. Qed.

(** A name [st.nc] with a non-empty [st] splits at that dot. *)
Lemma suffix_dot_nc (st : string) :
  st ≠ "" → Pathlib.suffix_dot (st +:+ ".nc") = Some (String.length st).
Proof.
  intros Hst. unfold Pathlib.suffix_dot.
  rewrite (rfind_append "." st "nc" eq_refl), length_append.
  destruct st as [|a st]; [congruence|].
  cbn [String.length].
  replace ((0 <? S (String.length st))%nat) with true
    by (symmetry; apply Nat.ltb_lt; lia).
  replace ((S (String.length st) <? S (String.length st) + 3 - 1)%nat) with true
    by (symmetry; apply Nat.ltb_lt; lia).
  reflexivity.
Qed.

Lemma stem_nc (d : Path) (st : string) :
  st ≠ "" → Pathlib.stem (Pathlib.joinpath d (st +:+ ".nc")) = st.
Proof.
  intros Hst. unfold Pathlib.stem.
  rewrite name_joinpath, (suffix_dot_nc st Hst). apply substring_prefix.
Qed.

Lemma suffix_nc (d : Path) (st : string) :
  st ≠ "" → Pathlib.suffix (Pathlib.joinpath d (st +:+ ".nc")) = ".nc".
Proof.
  intros Hst. unfold Pathlib.suffix.
  rewrite name_joinpath, (suffix_dot_nc st Hst), length_append.
  replace (String.length st + String.length ".nc" - String.length st)%nat
    with (String.length ".nc") by lia.
  apply substring_suffix.
Qed.

(** Line 82: the new stem goes between the old one and [.nc]. *)
Lemma with_stem_nc (d : Path) (st extra : string) :
  st ≠ "" →
  let p := Pathlib.joinpath d (st +:+ ".nc") in
  Pathlib.with_stem p (Pathlib.stem p +:+ extra)
  = Pathlib.joinpath d (st +:+ extra +:+ ".nc").
Proof.
  intros Hst p. unfold Pathlib.with_stem, Pathlib.with_name.
  subst p. rewrite (stem_nc d st Hst), (suffix_nc d st Hst).
  unfold Pathlib.joinpath at 1. rewrite removelast_last.
  unfold Pathlib.joinpath. now rewrite append_assoc.
Qed.

End PathFacts.

(** ** [prepare] and [download_era] as equations *)

Section PrepareFacts.

Context {P : Platform}.

Lemma era5_stem_nonempty (t : Timestamp) : "ERA5_" +:+ strftime_iso_hour t ≠ "".
Proof. discriminate. Qed.

(** [prepare] leaves the world as it is, and its result is [validate]
    followed by the two constructions. *)
Lemma prepare_eq date out_dir subset humid_param LOS w :
  prepare date out_dir subset humid_param LOS w
  = (match validate date out_dir subset w with
     | inl e => inl e
     | inr t =>
         inr (request_of t subset humid_param LOS,
              out_fp_of out_dir t subset LOS)
     end, w).
Proof.
  unfold prepare, validate, mbind, M_bind, path_exists, Client, datetime_now,
    parse_date.
  fold rc_path. fold (resolved_dir out_dir).
  destruct (bool_decide (rc_path ∈ files w)); cbn [assert_ mret M_ret raise negb];
    [|reflexivity].
  destruct (client_ok w); cbn [negb]; [|reflexivity].
  destruct (bool_decide (resolved_dir out_dir ∈ files w));
    cbn [assert_ mret M_ret raise negb]; [|reflexivity].
  assert (Hd : (match date with
                | DateStr s =>
                    match to_datetime s with
                    | Some t0 => mret t0
                    | None => raise (DateParseError s)
                    end
                | DateTs t0 => mret t0
                end : M Timestamp) w = (date_result date, w)).
  { destruct date as [sd|t0]; cbn [date_result]; [|reflexivity].
    destruct (to_datetime sd); reflexivity. }
  rewrite Hd. destruct (date_result date) as [e|t]; [reflexivity|].
  destruct (ts_ltb t (now w)); cbn [assert_ mret M_ret raise negb]; [|reflexivity].
  destruct (1939 <? year t); cbn [assert_ mret M_ret raise negb]; [|reflexivity].
  unfold bounds_failure, request_of, out_fp_of, bounds_suffix, final_bounds.
  destruct (if truthy subset then subset else None) as [g|]; [|reflexivity].
  destruct (bounds g) as [[[w0 s0] e0] n0].
  destruct (Coord.strictly_between (-180) 180 w0);
    cbn [assert_ mret M_ret raise negb]; [|reflexivity].
  destruct (Coord.strictly_between (-180) 180 e0);
    cbn [assert_ mret M_ret raise negb]; [|reflexivity].
  destruct (Coord.strictly_between (-90) 90 n0);
    cbn [assert_ mret M_ret raise negb]; [|reflexivity].
  destruct (Coord.strictly_between (-90) 90 s0);
    cbn [assert_ mret M_ret raise negb]; [|reflexivity].
  destruct (if LOS then los_expand w0 s0 e0 n0 else (w0, s0, e0, n0))
    as [[[w1 s1] e1] n1].
  fold (base_request t humid_param).
  rewrite (with_stem_nc (resolved_dir out_dir) _ _ (era5_stem_nonempty t)).
  reflexivity.
Qed.

Lemma parsed_date_result date t :
  date_result date = inr t ↔ parsed_date date = Some t.
Proof.
  destruct date as [sd|t0]; cbn [date_result parsed_date].
  - destruct (to_datetime sd); split; intros H; congruence.
  - split; intros H; congruence.
Qed.

Lemma bounds_failure_none subset :
  bounds_failure subset = None ↔ bounds_ok subset = true.
Proof.
  unfold bounds_failure, bounds_ok.
  destruct (if truthy subset then subset else None) as [g|]; [|tauto].
  destruct (bounds g) as [[[w0 s0] e0] n0].
  destruct (Coord.strictly_between (-180) 180 w0),
           (Coord.strictly_between (-180) 180 e0),
           (Coord.strictly_between (-90) 90 n0),
           (Coord.strictly_between (-90) 90 s0);
    cbn [negb andb]; split; congruence.
Qed.

(** [validate] lets exactly the inputs through that pass every check. *)
Lemma validate_ok_iff date out_dir subset w t :
  validate date out_dir subset w = inr t
  ↔ inputs_ok date out_dir subset w = true ∧ parsed_date date = Some t.
Proof.
  unfold validate, inputs_ok, env_ok, date_ok.
  rewrite <- parsed_date_result.
  destruct (bool_decide (rc_path ∈ files w)); cbn [negb andb];
    [|split; [|intros []]; congruence].
  destruct (client_ok w); cbn [negb andb]; [|split; [|intros []]; congruence].
  destruct (bool_decide (resolved_dir out_dir ∈ files w)); cbn [negb andb];
    [|split; [|intros []]; congruence].
  destruct (date_result date) as [e|t0] eqn:Hd.
  - destruct (parsed_date date) eqn:Hp.
    + apply parsed_date_result in Hp. congruence.
    + split; [|intros []]; congruence.
  - apply parsed_date_result in Hd. rewrite Hd.
    destruct (ts_ltb t0 (now w)); cbn [negb andb];
      [|split; [|intros []]; congruence].
    destruct (1939 <? year t0); cbn [negb andb];
      [|split; [|intros []]; congruence].
    destruct (bounds_failure subset) as [e|] eqn:Hb.
    + destruct (bounds_ok subset) eqn:Hb'.
      * apply bounds_failure_none in Hb'. congruence.
      * split; [|intros []]; congruence.
    + apply bounds_failure_none in Hb. rewrite Hb.
      split; [intros [= ->]; auto | intros [_ [= ->]]; reflexivity].
Qed.

(** No check raises what only the remote service raises. *)
Lemma validate_not_retrieval date out_dir subset w :
  validate date out_dir subset w ≠ inl RetrievalError.
Proof.
  unfold validate, bounds_failure, date_result.
  repeat case_match; congruence.
Qed.

(** An input that fails a check is stopped by [validate]. *)
Lemma validate_fails date out_dir subset w :
  inputs_ok date out_dir subset w = false →
  ∃ e, validate date out_dir subset w = inl e ∧ e ≠ RetrievalError.
Proof.
  intros Hbad. destruct (validate date out_dir subset w) as [e|t] eqn:Hv.
  - exists e. split; [reflexivity|]. intros ->.
    exact (validate_not_retrieval _ _ _ _ Hv).
  - apply validate_ok_iff in Hv. destruct Hv as [Hv _]. congruence.
Qed.

(** [c.retrieve] written out. *)
Lemma retrieve_eq name request target w :
  retrieve name request target w
  = let c := mkCall name request target in
    (if (cds_retrieve c (files w)).2 then inr tt else inl RetrievalError,
     mkWorld (cds_retrieve c (files w)).1 (now w) (calls w ++ [c])).
Proof.
  unfold retrieve. cbn zeta.
  destruct (cds_retrieve _ (files w)) as [fs [|]]; reflexivity.
Qed.

(** [download_era] in one equation: the checks, then the cache
    decision of line 85. *)
Lemma download_era_eq date out_dir subset humid_param LOS overwrite w :
  download_era date out_dir subset humid_param LOS overwrite w
  = match validate date out_dir subset w with
    | inl e => (inl e, w)
    | inr t =>
        let p := out_fp_of out_dir t subset LOS in
        let c := the_call out_dir t subset humid_param LOS in
        if negb (bool_decide (p ∈ files w)) || overwrite then
          (if (cds_retrieve c (files w)).2 then inr p else inl RetrievalError,
           mkWorld (cds_retrieve c (files w)).1 (now w) (calls w ++ [c]))
        else (inr p, w)
    end.
Proof.
  unfold download_era, mbind, M_bind. rewrite prepare_eq.
  destruct (validate date out_dir subset w) as [e|t]; [reflexivity|].
  unfold path_exists. cbn zeta.
  destruct (negb (bool_decide (out_fp_of out_dir t subset LOS ∈ files w))
            || overwrite); [|reflexivity].
  rewrite retrieve_eq. unfold the_call. cbn zeta.
  destruct ((cds_retrieve _ (files w)).2); reflexivity.
Qed.

End PrepareFacts.

(** ** The request dictionary, key by key *)

Section RequestFacts.

Context {P : Platform}.

Lemma base_request_lookup t humid_param :
  base_request t humid_param !! "product_type" = Some (PyStr "reanalysis")
  ∧ base_request t humid_param !! "format" = Some (PyStr "netcdf")
  ∧ base_request t humid_param !! "variable"
    = Some (PyList ["geopotential"; "temperature"; humid_param])
  ∧ base_request t humid_param !! "pressure_level" = Some (PyList era_pressure_lvls)
  ∧ base_request t humid_param !! "date" = Some (PyStr (strftime_date t))
  ∧ base_request t humid_param !! "time" = Some (PyStr (strftime_time t))
  ∧ base_request t humid_param !! "area" = None.
Proof.
  unfold base_request. repeat split; simplify_map_eq; reflexivity.
Qed.

(** Line 79 adds one key and changes no other. *)
Lemma request_of_lookup t subset humid_param LOS k :
  k ≠ "area" →
  request_of t subset humid_param LOS !! k = base_request t humid_param !! k.
Proof.
  intros Hk. unfold request_of.
  destruct (final_bounds subset LOS) as [[[[w s] e] n]|]; [|reflexivity].
  now rewrite lookup_insert_ne.
Qed.

Lemma request_of_area t subset humid_param LOS :
  request_of t subset humid_param LOS !! "area"
  = match final_bounds subset LOS with
    | Some (w, s, e, n) => Some (PyStr (join "/" (map str_float [n; w; s; e])))
    | None => None
    end.
Proof.
  unfold request_of.
  destruct (final_bounds subset LOS) as [[[[w s] e] n]|].
  - apply lookup_insert_eq.
  - apply base_request_lookup.
Qed.

End RequestFacts.

(** ** Order of timestamps *)

Section ClockFacts.

(** A reading that is not later than another one stays below whatever
    the other is below. *)
Lemma lex_ltb_trans (a b c : list Z) :
  length a = length b → length b = length c →
  lex_ltb a b = true → lex_ltb c b = false → lex_ltb a c = true.
Proof.
  revert b c. induction a as [|x a IH]; intros [|y b] [|z c]; cbn [length lex_ltb];
    try discriminate.
  intros Hab Hbc Hlt Hge.
  apply orb_true_iff in Hlt. apply orb_false_iff in Hge. destruct Hge as [Hzy Hge].
  apply Z.ltb_ge in Hzy. apply andb_false_iff in Hge.
  apply orb_true_iff.
  destruct Hlt as [Hxy|Hxy].
  - apply Z.ltb_lt in Hxy.
    destruct (Z.eq_dec z y) as [->|Hne].
    + left. now apply Z.ltb_lt.
    + left. apply Z.ltb_lt. lia.
  - apply andb_true_iff in Hxy. destruct Hxy as [Hxy Hrest]. apply Z.eqb_eq in Hxy.
    subst y. destruct Hge as [Hzx|Hge].
    + apply Z.eqb_neq in Hzx. left. apply Z.ltb_lt. lia.
    + destruct (Z.eq_dec x z) as [->|Hne].
      * right. rewrite Z.eqb_refl. cbn [andb]. apply (IH b c); congruence.
      * left. apply Z.ltb_lt. lia.
Qed.

Lemma ts_ltb_trans (a b c : Timestamp) :
  ts_ltb a b = true → ts_ltb c b = false → ts_ltb a c = true.
Proof. unfold ts_ltb. apply lex_ltb_trans; reflexivity. Qed.

End ClockFacts.

(** ** Floats that differ *)

Lemma float_neq (a b : float) :
  PrimFloat.eqb a b = false → Coord.is_nan b = false → a ≠ b.
Proof.
  intros Hab Hb ->. unfold Coord.is_nan in Hb. rewrite Hab in Hb. discriminate.
Qed.

(** ** Widths of padded numbers *)

Section PadFacts.

Lemma pad_width_checked (k : nat) (bound : Z) :
  forallb (λ n, Nat.eqb (String.length (Dec.pad k (Z.of_nat n))) k)
    (seq 0 (Z.to_nat bound))
  = true →
  ∀ z, 0 ≤ z < bound → String.length (Dec.pad k z) = k.
Proof.
  intros Hall z Hz. rewrite forallb_forall in Hall.
  specialize (Hall (Z.to_nat z)).
  rewrite Z2Nat.id in Hall by lia.
  apply Nat.eqb_eq, Hall, in_seq. lia.
Qed.

(** [%Y] of a year below 10000 has four characters. *)
Lemma pad4_width z : 0 ≤ z < 10000 → String.length (Dec.pad 4 z) = 4%nat.
Proof.
  apply (pad_width_checked 4 10000). vm_compute. reflexivity.
Qed.

(** [%m], [%d] and [%H] have two characters. *)
Lemma pad2_width z : 0 ≤ z < 100 → String.length (Dec.pad 2 z) = 2%nat.
Proof.
  apply (pad_width_checked 2 100). vm_compute. reflexivity.
Qed.

End PadFacts.

(** ** What a run returns *)

Section RunFacts.

Context {P : Platform}.

(** A run that passes the checks returns the derived path, unless the
    remote service raises. *)
Lemma download_era_returns date out_dir subset humid_param LOS overwrite w t :
  validate date out_dir subset w = inr t →
  (download_era date out_dir subset humid_param LOS overwrite w).1
    = inr (out_fp_of out_dir t subset LOS)
  ∨ (download_era date out_dir subset humid_param LOS overwrite w).1
    = inl RetrievalError.
Proof.
  intros Hv. rewrite download_era_eq, Hv. cbn zeta.
  destruct (negb _ || overwrite); [|left; reflexivity].
  destruct ((cds_retrieve _ (files w)).2); [left|right]; reflexivity.
Qed.

(** A run that fails a check raises that check's exception and leaves
    the world as it was. *)
Lemma download_era_stopped date out_dir subset humid_param LOS overwrite w e :
  validate date out_dir subset w = inl e →
  download_era date out_dir subset humid_param LOS overwrite w = (inl e, w).
Proof. intros Hv. now rewrite download_era_eq, Hv. Qed.

(** The suffix of line 82, written on the polygon. *)
Lemma bounds_suffix_eq subset LOS :
  bounds_suffix subset LOS
  = match subset with
    | Some g =>
        if is_empty g then ""
        else
          let '(w0, s0, e0, n0) := bounds g in
          let '(w1, s1, e1, n1) :=
            if LOS then los_expand w0 s0 e0 n0 else (w0, s0, e0, n0) in
          "_" +:+ join "_" (map Coord.format_2f [w1; s1; e1; n1])
    | None => ""
    end.
Proof.
  unfold bounds_suffix, final_bounds. destruct subset as [g|]; [|reflexivity].
  cbn [truthy]. destruct (is_empty g); cbn [negb]; [reflexivity|].
  destruct (bounds g) as [[[w0 s0] e0] n0].
  destruct (if LOS then _ else _) as [[[w1 s1] e1] n1]. reflexivity.
Qed.

(** The checks still pass in a later world that has kept the files. *)
Lemma validate_later date out_dir subset w w2 t :
  validate date out_dir subset w = inr t →
  files w ⊆ files w2 →
  client_ok w2 = true →
  ts_ltb (now w2) (now w) = false →
  validate date out_dir subset w2 = inr t.
Proof.
  intros Hv Hfiles Hclient Hclock.
  apply validate_ok_iff in Hv. destruct Hv as [Hok Ht].
  apply validate_ok_iff. split; [|exact Ht].
  unfold inputs_ok, env_ok, date_ok in *. rewrite Ht in *.
  repeat (apply andb_prop in Hok; destruct Hok as [Hok ?]).
  apply bool_decide_eq_true_1 in Hok.
  match goal with H : bool_decide (resolved_dir _ ∈ _) = true |- _ =>
    apply bool_decide_eq_true_1 in H; rename H into Hdir end.
  match goal with H : ts_ltb _ _ && _ = true |- _ =>
    apply andb_prop in H; destruct H as [Hpast Hyear] end.
  repeat (apply andb_true_intro; split); auto.
  - apply bool_decide_eq_true_2. set_solver.
  - apply bool_decide_eq_true_2. set_solver.
  - eapply ts_ltb_trans; eauto.
Qed.

End RunFacts.

(** * The claims of the specification *)

(** ** Line-of-sight expansion *)

(** C1. For the subset w=-10, s=-5, e=10, n=5 the block under [if LOS:]
    yields west -30 and south -15, as [max(w - |e-w|, -180)] and
    [max(s - |n-s|, -90)] give, but east 50 and north 25: the east and
    north lines read the west and south values that the lines before
    them have already replaced, so they are not [min(e + |e-w|, 180)]
    and [min(n + |n-s|, 90)] of the original bounds, which would be 30
    and 15.  The area entry of the request carries these values. *)
Theorem los_expand_box :
  los_expand (-10) (-5) 10 5 = (-30, -15, 50, 25)%float
  ∧ los_expand (-10) (-5) 10 5 ≠ (-30, -15, 30, 15)%float
  ∧ ∀ (P : Platform) t humid_param,
      request_of t (Some Demo.box) humid_param true !! "area"
      = Some (PyStr (join "/" (map str_float [25; -30; -15; 50]%float))).
Proof.
  assert (Hbox : los_expand (-10) (-5) 10 5 = (-30, -15, 50, 25)%float)
    by (vm_compute; reflexivity).
  split; [exact Hbox|]. split.
  - rewrite Hbox. intros Heq.
    assert (Hn : (25 = 15)%float) by congruence.
    revert Hn. apply float_neq; vm_compute; reflexivity.
  - intros P t humid_param. rewrite request_of_area.
    unfold final_bounds, Demo.box. cbn [truthy is_empty negb bounds].
    rewrite Hbox. reflexivity.
Qed.

(** ** Falsy subsets *)

(** C10. An empty polygon is falsy, and [download_era] treats it as it
    treats [None]: the same result in every world, whatever its bounds
    are; they are not checked, the request has no area entry and the
    file name has no suffix. *)
Theorem empty_subset_as_none (P : Platform) date out_dir g humid_param LOS overwrite w t :
  is_empty g = true →
  download_era date out_dir (Some g) humid_param LOS overwrite w
  = download_era date out_dir None humid_param LOS overwrite w
  ∧ bounds_failure (Some g) = None
  ∧ request_of t (Some g) humid_param LOS !! "area" = None
  ∧ out_fp_of out_dir t (Some g) LOS
    = Pathlib.joinpath (resolved_dir out_dir)
        ("ERA5_" +:+ strftime_iso_hour t +:+ ".nc").
Proof.
  intros Hempty.
  assert (Hfalsy : (if truthy (Some g) then Some g else None) = None)
    by (cbn [truthy]; now rewrite Hempty).
  split; [|split; [|split]].
  - unfold download_era, prepare. now rewrite Hfalsy.
  - unfold bounds_failure. now rewrite Hfalsy.
  - rewrite request_of_area. unfold final_bounds. now rewrite Hfalsy.
  - unfold out_fp_of, bounds_suffix, final_bounds. now rewrite Hfalsy.
Qed.

(** The empty polygon in the demo world: the call goes through as
    without a subset, and the file name has no suffix. *)
Lemma empty_subset_as_none_demo :
  download_era (P := Demo.platform) (DateStr "2020-01-05 07:42") (DirStr "data")
    (Some Demo.empty_polygon) "specific_humidity" true false Demo.world0
  = download_era (P := Demo.platform) (DateStr "2020-01-05 07:42") (DirStr "data")
      None "specific_humidity" true false Demo.world0
  ∧ (download_era (P := Demo.platform) (DateStr "2020-01-05 07:42") (DirStr "data")
       (Some Demo.empty_polygon) "specific_humidity" true false Demo.world0).1
    = inr ["/"; "data"; "ERA5_2020-01-05T07:00.nc"].
Proof.
  split.
  - apply (empty_subset_as_none Demo.platform (DateStr "2020-01-05 07:42")
             (DirStr "data") Demo.empty_polygon "specific_humidity" true false
             Demo.world0 (mkTimestamp 2020 1 5 7 42 0 0) eq_refl).
  - vm_compute. reflexivity.
Defined.

(** ** The humidity parameter *)

(** C9. [humid_param] is never checked: two runs that differ only in it
    raise the same exception or both pass, and a run that passes has the
    string as third entry of the variable list, whatever it is. *)
Theorem humid_param_unchecked (P : Platform) date out_dir subset h1 h2 LOS w :
  match (prepare date out_dir subset h1 LOS w).1,
        (prepare date out_dir subset h2 LOS w).1 with
  | inl e1, inl e2 => e1 = e2
  | inr (r1, p1), inr (r2, p2) =>
      r1 !! "variable" = Some (PyList ["geopotential"; "temperature"; h1])
      ∧ r2 !! "variable" = Some (PyList ["geopotential"; "temperature"; h2])
      ∧ p1 = p2
  | _, _ => False
  end.
Proof.
  rewrite !prepare_eq. cbn [fst].
  destruct (validate date out_dir subset w) as [e|t]; [reflexivity|].
  rewrite !request_of_lookup by discriminate.
  repeat split; apply base_request_lookup.
Qed.

(** ** The output path *)

(** C2, as the claim states it, fails: with the subset [Demo.box], the
    call with [LOS=False] and the call with [LOS=True] return different
    paths. *)
Lemma los_flag_changes_path :
  ∃ p1 p2,
    (download_era (P := Demo.platform) (DateStr "2020-01-05 07:42")
       (DirStr "data") (Some Demo.box) "specific_humidity" false false
       Demo.world0).1 = inr p1
    ∧ (download_era (P := Demo.platform) (DateStr "2020-01-05 07:42")
         (DirStr "data") (Some Demo.box) "specific_humidity" true false
         Demo.world0).1 = inr p2
    ∧ p1 ≠ p2.
Proof.
  exists ["/"; "data"; "ERA5_2020-01-05T07:00_-10.00_-5.00_10.00_5.00.nc"].
  exists ["/"; "data"; "ERA5_2020-01-05T07:00_-30.00_-15.00_50.00_25.00.nc"].
  split; [vm_compute; reflexivity|]. split; [vm_compute; reflexivity|].
  discriminate.
Qed.

(** C2, amended. The output path does not depend on the humidity
    parameter: two runs that differ only in it derive the same path or
    stop at the same exception.  Without a subset it does not depend on
    the line-of-sight flag either.  A call returns the path that
    [prepare] derived, unless the remote service raises. *)
Theorem path_ignores_humid_param (P : Platform) date out_dir subset h1 h2 LOS overwrite w :
  path_result (prepare date out_dir subset h1 LOS w).1
  = path_result (prepare date out_dir subset h2 LOS w).1
  ∧ path_result (prepare date out_dir None h1 true w).1
    = path_result (prepare date out_dir None h2 false w).1
  ∧ ((download_era date out_dir subset h1 LOS overwrite w).1
     = path_result (prepare date out_dir subset h1 LOS w).1
     ∨ (download_era date out_dir subset h1 LOS overwrite w).1
       = inl RetrievalError).
Proof.
  rewrite !prepare_eq. cbn [fst]. split; [|split].
  - destruct (validate date out_dir subset w); reflexivity.
  - destruct (validate date out_dir None w); reflexivity.
  - destruct (validate date out_dir subset w) as [e|t] eqn:Hv; cbn [path_result].
    + left. now rewrite (download_era_stopped _ _ _ _ _ _ _ _ Hv).
    + now apply download_era_returns.
Qed.

(** C3, as the claim states it, fails: with [LOS=True] the suffix of the
    file name is made of the expanded bounds, not of the bounds of the
    subset. *)
Lemma los_suffix_is_expanded :
  (download_era (P := Demo.platform) (DateStr "2020-01-05 07:42")
     (DirStr "data") (Some Demo.box) "specific_humidity" true false
     Demo.world0).1
  = inr ["/"; "data"; "ERA5_2020-01-05T07:00_-30.00_-15.00_50.00_25.00.nc"]
  ∧ "ERA5_2020-01-05T07:00_-30.00_-15.00_50.00_25.00.nc"
    ≠ "ERA5_" +:+ strftime_iso_hour (mkTimestamp 2020 1 5 7 42 0 0) +:+ "_"
      +:+ join "_" (map Coord.format_2f [-10; -5; 10; 5]%float) +:+ ".nc".
Proof.
  split; [vm_compute; reflexivity|]. vm_compute. discriminate.
Qed.

(** C3, amended. For inputs that pass the checks the file is
    [ERA5_<timestamp to the hour>.nc] in the resolved directory.  With a
    subset that is used, the stem ends in west, south, east, north with
    two decimals, joined by underscores: the bounds of the subset when
    [LOS] is false, the bounds that the line-of-sight block has put in
    their place (the ones sent as area) when it is true.  Without such a
    subset there is no suffix. *)
Theorem output_file_name (P : Platform) date out_dir (subset : option Polygon)
    humid_param (LOS overwrite : bool) w t :
  inputs_ok date out_dir subset w = true →
  parsed_date date = Some t →
  let suffix :=
    match subset with
    | Some g =>
        if is_empty g then ""
        else
          let '(w0, s0, e0, n0) := bounds g in
          let '(w1, s1, e1, n1) :=
            if LOS then los_expand w0 s0 e0 n0 else (w0, s0, e0, n0) in
          "_" +:+ join "_" (map Coord.format_2f [w1; s1; e1; n1])
    | None => ""
    end in
  let out_fp :=
    Pathlib.joinpath (resolved_dir out_dir)
      ("ERA5_" +:+ strftime_iso_hour t +:+ suffix +:+ ".nc") in
  path_result (prepare date out_dir subset humid_param LOS w).1 = inr out_fp
  ∧ ((download_era date out_dir subset humid_param LOS overwrite w).1 = inr out_fp
     ∨ (download_era date out_dir subset humid_param LOS overwrite w).1
       = inl RetrievalError).
Proof.
  intros Hok Ht suffix out_fp.
  assert (Hv : validate date out_dir subset w = inr t)
    by (apply validate_ok_iff; auto).
  assert (Hp : out_fp_of out_dir t subset LOS = out_fp)
    by (unfold out_fp_of; now rewrite bounds_suffix_eq).
  split.
  - rewrite prepare_eq, Hv. cbn [fst path_result]. now rewrite Hp.
  - rewrite <- Hp. now apply download_era_returns.
Qed.

(** The checks pass for the box in the demo world, and the file name
    carries the bounds of the box. *)
Lemma output_file_name_demo :
  path_result
    (prepare (P := Demo.platform) (DateStr "2020-01-05 07:42") (DirStr "data")
       (Some Demo.box) "specific_humidity" false Demo.world0).1
  = inr ["/"; "data"; "ERA5_2020-01-05T07:00_-10.00_-5.00_10.00_5.00.nc"].
Proof.
  exact (proj1 (output_file_name Demo.platform (DateStr "2020-01-05 07:42")
                  (DirStr "data") (Some Demo.box) "specific_humidity" false false
                  Demo.world0 (mkTimestamp 2020 1 5 7 42 0 0)
                  eq_refl eq_refl)).
Defined.

(** ** The range of dates *)

(** C4, as the claim states it, fails: midnight of 1 January 1940 is not
    strictly later than 1 January 1940, and the call returns. *)
Lemma first_of_january_1940_accepted :
  ts_ltb (mkTimestamp 1940 1 1 0 0 0 0) (mkTimestamp 1940 1 1 0 0 0 0) = false
  ∧ (download_era (P := Demo.platform) (DateTs (mkTimestamp 1940 1 1 0 0 0 0))
       (DirStr "data") None "specific_humidity" false false Demo.world0).1
    = inr ["/"; "data"; "ERA5_1940-01-01T00:00.nc"].
Proof. split; vm_compute; reflexivity. Qed.

(** C4, amended. A timestamp that is not before the current moment, or
    whose year is 1939 or earlier, makes the call raise and leaves the
    world untouched, so nothing is retrieved; where the credentials, the
    client and the directory are in order, the exception is the
    assertion of line 46, respectively of line 47.  A timestamp before
    the current moment whose year is 1940 or later passes both. *)
Theorem date_range_checked (P : Platform) date out_dir subset humid_param LOS overwrite w t :
  parsed_date date = Some t →
  let run := download_era date out_dir subset humid_param LOS overwrite w in
  (ts_ltb t (now w) = false ∨ year t ≤ 1939 →
     ∃ e, run = (inl e, w) ∧ e ≠ RetrievalError)
  ∧ (env_ok out_dir w = true → ts_ltb t (now w) = false →
     run = (inl (AssertionError "provided date is in the future"), w))
  ∧ (env_ok out_dir w = true → ts_ltb t (now w) = true → year t ≤ 1939 →
     run = (inl (AssertionError "provided date is before january 1940"), w))
  ∧ (env_ok out_dir w = true → ts_ltb t (now w) = true → 1940 ≤ year t →
     bounds_ok subset = true →
     run.1 = inr (out_fp_of out_dir t subset LOS) ∨ run.1 = inl RetrievalError).
Proof.
  intros Ht run. subst run.
  assert (Hd : date_result date = inr t) by now apply parsed_date_result.
  split; [|split; [|split]].
  - intros Hbad.
    assert (Hin : inputs_ok date out_dir subset w = false).
    { unfold inputs_ok, date_ok. rewrite Ht. destruct Hbad as [Hfut|Hold].
      - rewrite Hfut. cbn [andb]. now rewrite andb_false_r.
      - replace (1939 <? year t) with false by (symmetry; apply Z.ltb_ge; lia).
        now rewrite !andb_false_r. }
    destruct (validate_fails _ _ _ _ Hin) as (e & Hv & Hne).
    exists e. split; [|exact Hne]. now apply download_era_stopped.
  - intros Henv Hfut. apply download_era_stopped. revert Henv.
    unfold env_ok, validate. rewrite Hd, Hfut.
    intros Henv. repeat (apply andb_prop in Henv; destruct Henv as [Henv ?]).
    now rewrite Henv, H, H0.
  - intros Henv Hpast Hold. apply download_era_stopped. revert Henv.
    unfold env_ok, validate. rewrite Hd, Hpast.
    replace (1939 <? year t) with false by (symmetry; apply Z.ltb_ge; lia).
    intros Henv. repeat (apply andb_prop in Henv; destruct Henv as [Henv ?]).
    now rewrite Henv, H, H0.
  - intros Henv Hpast Hyear Hb. apply download_era_returns.
    apply validate_ok_iff. split; [|exact Ht].
    unfold inputs_ok, date_ok. rewrite Henv, Ht, Hpast, Hb.
    replace (1939 <? year t) with true by (symmetry; apply Z.ltb_lt; lia).
    reflexivity.
Qed.

(** 1939-12-31 is refused in the demo world, 1940-01-02 is not. *)
Lemma date_range_checked_demo :
  download_era (P := Demo.platform) (DateTs (mkTimestamp 1939 12 31 0 0 0 0))
    (DirStr "data") None "specific_humidity" false false Demo.world0
  = (inl (AssertionError "provided date is before january 1940"), Demo.world0)
  ∧ (download_era (P := Demo.platform) (DateTs (mkTimestamp 1940 1 2 0 0 0 0))
       (DirStr "data") None "specific_humidity" false false Demo.world0).1
    = inr ["/"; "data"; "ERA5_1940-01-02T00:00.nc"].
Proof.
  split.
  - apply (date_range_checked Demo.platform (DateTs (mkTimestamp 1939 12 31 0 0 0 0))
             (DirStr "data") None "specific_humidity" false false Demo.world0
             (mkTimestamp 1939 12 31 0 0 0 0) eq_refl).
    + reflexivity.
    + reflexivity.
    + cbn [year]. lia.
  - vm_compute. reflexivity.
Defined.

(** ** Bounds of the subset *)

(** C6. With credentials, client, directory and date in order, a subset
    that is used and has a bound outside the open ranges makes the call
    raise the assertion of the first such bound, in the order west,
    east, north, south; the message names the bound and prints its
    value, and the world is untouched.  The ends of the ranges are
    outside: 180 and -180 as longitudes, 90 and -90 as latitudes. *)
Theorem bounds_checked (P : Platform) date out_dir g humid_param LOS overwrite w t
    (w0 s0 e0 n0 : float) :
  env_ok out_dir w = true →
  parsed_date date = Some t →
  date_ok t w = true →
  is_empty g = false →
  bounds g = (w0, s0, e0, n0) →
  Coord.strictly_between (-180) 180 w0 && Coord.strictly_between (-180) 180 e0
  && Coord.strictly_between (-90) 90 n0 && Coord.strictly_between (-90) 90 s0
  = false →
  (∃ which x,
     download_era date out_dir (Some g) humid_param LOS overwrite w
     = (inl (AssertionError (bound_msg which x)), w)
     ∧ ((which = "West" ∧ x = w0 ∧ Coord.strictly_between (-180) 180 w0 = false)
        ∨ (which = "East" ∧ x = e0 ∧ Coord.strictly_between (-180) 180 e0 = false)
        ∨ (which = "North" ∧ x = n0 ∧ Coord.strictly_between (-90) 90 n0 = false)
        ∨ (which = "South" ∧ x = s0 ∧ Coord.strictly_between (-90) 90 s0 = false)))
  ∧ Coord.strictly_between (-180) 180 180 = false
  ∧ Coord.strictly_between (-180) 180 (-180) = false
  ∧ Coord.strictly_between (-90) 90 90 = false
  ∧ Coord.strictly_between (-90) 90 (-90) = false.
Proof.
  intros Henv Ht Hdate Hempty Hb Hout.
  split; [|repeat split; vm_compute; reflexivity].
  assert (Hd : date_result date = inr t) by now apply parsed_date_result.
  assert (Hv : validate date out_dir (Some g) w
               = match bounds_failure (Some g) with
                 | Some e => inl e
                 | None => inr t
                 end).
  { unfold validate. rewrite Hd. revert Henv Hdate. unfold env_ok, date_ok.
    intros Henv Hdate.
    repeat (apply andb_prop in Henv; destruct Henv as [Henv ?]).
    apply andb_prop in Hdate. destruct Hdate as [Hpast Hyear].
    now rewrite Henv, H, H0, Hpast, Hyear. }
  revert Hv. unfold bounds_failure. cbn [truthy]. rewrite Hempty. cbn [negb].
  rewrite Hb.
  destruct (Coord.strictly_between (-180) 180 w0) eqn:Hw; cbn [negb].
  2: { intros Hv. exists "West", w0. split; [now apply download_era_stopped|].
       left; auto. }
  destruct (Coord.strictly_between (-180) 180 e0) eqn:He; cbn [negb].
  2: { intros Hv. exists "East", e0. split; [now apply download_era_stopped|].
       right; left; auto. }
  destruct (Coord.strictly_between (-90) 90 n0) eqn:Hn; cbn [negb].
  2: { intros Hv. exists "North", n0. split; [now apply download_era_stopped|].
       right; right; left; auto. }
  destruct (Coord.strictly_between (-90) 90 s0) eqn:Hs; cbn [negb].
  2: { intros Hv. exists "South", s0. split; [now apply download_era_stopped|].
       right; right; right; auto. }
  discriminate Hout.
Qed.

(** A box whose east bound is 180 is refused in the demo world. *)
Lemma bounds_checked_demo :
  ∃ which x,
    download_era (P := Demo.platform) (DateStr "2020-01-05 07:42") (DirStr "data")
      (Some (mkPolygon false (-10, -5, 180, 5)%float)) "specific_humidity"
      false false Demo.world0
    = (inl (AssertionError (bound_msg (P := Demo.platform) which x)), Demo.world0)
    ∧ ((which = "West" ∧ x = (-10)%float
        ∧ Coord.strictly_between (-180) 180 (-10) = false)
       ∨ (which = "East" ∧ x = 180%float
          ∧ Coord.strictly_between (-180) 180 180 = false)
       ∨ (which = "North" ∧ x = 5%float
          ∧ Coord.strictly_between (-90) 90 5 = false)
       ∨ (which = "South" ∧ x = (-5)%float
          ∧ Coord.strictly_between (-90) 90 (-5) = false)).
Proof.
  apply (bounds_checked Demo.platform (DateStr "2020-01-05 07:42") (DirStr "data")
           (mkPolygon false (-10, -5, 180, 5)%float) "specific_humidity"
           false false Demo.world0 (mkTimestamp 2020 1 5 7 42 0 0)
           (-10)%float (-5)%float 180%float 5%float);
    vm_compute; reflexivity.
Defined.

(** ** Failing fast *)

(** C7. Whenever a check fails (credentials file, client, directory,
    parsing of the date, range of the date, bounds of the subset) the
    call raises an exception that is not the one of the retrieval, and
    the world after the call is the world before it: no file has
    appeared and no retrieval has been requested. *)
Theorem failed_check_no_effect (P : Platform) date out_dir subset humid_param LOS overwrite w :
  inputs_ok date out_dir subset w = false →
  ∃ e,
    download_era date out_dir subset humid_param LOS overwrite w = (inl e, w)
    ∧ e ≠ RetrievalError
    ∧ calls (download_era date out_dir subset humid_param LOS overwrite w).2
      = calls w
    ∧ files (download_era date out_dir subset humid_param LOS overwrite w).2
      = files w.
Proof.
  intros Hbad. destruct (validate_fails _ _ _ _ Hbad) as (e & Hv & Hne).
  exists e. rewrite (download_era_stopped _ _ _ humid_param LOS overwrite _ _ Hv).
  auto.
Qed.

(** A directory that does not exist stops the call in the demo world. *)
Lemma failed_check_no_effect_demo :
  ∃ e,
    download_era (P := Demo.platform) (DateStr "2020-01-05 07:42")
      (DirStr "nowhere") (Some Demo.box) "specific_humidity" false true Demo.world0
    = (inl e, Demo.world0)
    ∧ e ≠ RetrievalError
    ∧ calls (download_era (P := Demo.platform) (DateStr "2020-01-05 07:42")
               (DirStr "nowhere") (Some Demo.box) "specific_humidity" false true
               Demo.world0).2
      = calls Demo.world0
    ∧ files (download_era (P := Demo.platform) (DateStr "2020-01-05 07:42")
               (DirStr "nowhere") (Some Demo.box) "specific_humidity" false true
               Demo.world0).2
      = files Demo.world0.
Proof.
  apply (failed_check_no_effect Demo.platform). vm_compute. reflexivity.
Defined.

(** ** Cache or retrieve *)

(** C5. For inputs that pass the checks, with [p] the derived path:
    when [p] does not exist or [overwrite] is true the call asks the
    client for exactly one retrieval, of the request into [p], and
    returns [p] unless the client raises; when [p] exists and
    [overwrite] is false nothing is retrieved, the world is unchanged
    and [p] is returned.  So [overwrite=True] retrieves also when [p]
    exists, and after a first call that has left [p] in place, a second
    call with the same arguments and [overwrite=False], in a later world
    that has kept the files, retrieves nothing and returns [p]. *)
Theorem retrieve_iff_missing_or_overwrite (P : Platform) date out_dir subset
    humid_param LOS overwrite w t :
  inputs_ok date out_dir subset w = true →
  parsed_date date = Some t →
  let p := out_fp_of out_dir t subset LOS in
  let c := mkCall "reanalysis-era5-pressure-levels"
             (request_of t subset humid_param LOS) p in
  let run := download_era date out_dir subset humid_param LOS overwrite w in
  (p ∉ files w ∨ overwrite = true →
     calls run.2 = calls w ++ [c] ∧ (run.1 = inr p ∨ run.1 = inl RetrievalError))
  ∧ (p ∈ files w ∧ overwrite = false → run = (inr p, w))
  ∧ (∀ r w', run = (inr r, w') → r = p)
  ∧ (p ∈ files w →
     calls (download_era date out_dir subset humid_param LOS true w).2
     = calls w ++ [c])
  ∧ (∀ w1 w2,
       download_era date out_dir subset humid_param LOS false w = (inr p, w1) →
       files w ⊆ files w1 → p ∈ files w1 →
       files w1 ⊆ files w2 → client_ok w2 = true →
       ts_ltb (now w2) (now w) = false →
       download_era date out_dir subset humid_param LOS false w2 = (inr p, w2)).
Proof.
  intros Hok Ht p c run.
  assert (Hv : validate date out_dir subset w = inr t)
    by (apply validate_ok_iff; auto).
  assert (Hrun : ∀ ov,
            download_era date out_dir subset humid_param LOS ov w
            = if negb (bool_decide (p ∈ files w)) || ov then
                (if (cds_retrieve c (files w)).2 then inr p else inl RetrievalError,
                 mkWorld (cds_retrieve c (files w)).1 (now w) (calls w ++ [c]))
              else (inr p, w)).
  { intros ov. now rewrite download_era_eq, Hv. }
  split; [|split; [|split; [|split]]].
  - intros Hcond. subst run. rewrite Hrun.
    replace (negb (bool_decide (p ∈ files w)) || overwrite) with true.
    + cbn [fst snd calls]. split; [reflexivity|].
      destruct ((cds_retrieve c (files w)).2); auto.
    + symmetry. destruct Hcond as [Hmiss| ->]; [|apply orb_true_r].
      now rewrite (bool_decide_eq_false_2 _ Hmiss).
  - intros [Hin ->]. subst run. rewrite Hrun.
    now rewrite (bool_decide_eq_true_2 _ Hin).
  - intros r w'. subst run. rewrite Hrun.
    destruct (negb _ || overwrite); [|congruence].
    destruct ((cds_retrieve c (files w)).2); congruence.
  - intros _. rewrite Hrun, orb_true_r. reflexivity.
  - intros w1 w2 _ Hkept1 Hp1 Hkept2 Hclient Hclock.
    assert (Hv2 : validate date out_dir subset w2 = inr t).
    { apply (validate_later _ _ _ w); auto. set_solver. }
    rewrite download_era_eq, Hv2. cbn zeta. fold p.
    assert (Hp2 : p ∈ files w2) by set_solver.
    now rewrite (bool_decide_eq_true_2 _ Hp2).
Qed.

(** In the demo world the first call retrieves the file, and a second
    call in the world that it leaves returns the same path and
    retrieves nothing. *)
Lemma retrieve_iff_missing_or_overwrite_demo :
  calls (download_era (P := Demo.platform) (DateStr "2020-01-05 07:42")
           (DirStr "data") (Some Demo.box) "specific_humidity" false true
           Demo.world0).2
  = [mkCall "reanalysis-era5-pressure-levels"
       (request_of (P := Demo.platform) (mkTimestamp 2020 1 5 7 42 0 0)
          (Some Demo.box) "specific_humidity" false)
       ["/"; "data"; "ERA5_2020-01-05T07:00_-10.00_-5.00_10.00_5.00.nc"]]
  ∧ (let w1 :=
       (download_era (P := Demo.platform) (DateStr "2020-01-05 07:42")
          (DirStr "data") (Some Demo.box) "specific_humidity" false false
          Demo.world0).2 in
     download_era (P := Demo.platform) (DateStr "2020-01-05 07:42")
       (DirStr "data") (Some Demo.box) "specific_humidity" false false w1
     = (inr ["/"; "data"; "ERA5_2020-01-05T07:00_-10.00_-5.00_10.00_5.00.nc"], w1)).
Proof.
  split.
  - apply (proj1 (retrieve_iff_missing_or_overwrite Demo.platform
                    (DateStr "2020-01-05 07:42") (DirStr "data") (Some Demo.box)
                    "specific_humidity" false true Demo.world0
                    (mkTimestamp 2020 1 5 7 42 0 0) eq_refl eq_refl)).
    right. reflexivity.
  - vm_compute. reflexivity.
Defined.

(** ** The request *)

(** C8. For inputs that pass the checks, [prepare] yields a request with
    product type [reanalysis], format [netcdf], the variables
    geopotential, temperature and the humidity parameter, the 37
    pressure levels 1, 2, 3, ..., 1000, the date as zero-padded year,
    month and day joined by dashes, and the time as the zero-padded hour
    followed by [:00], in which minute, second and nanosecond have no
    part; with a subset that is used it has the area made of north,
    west, south, east joined by slashes, and none otherwise.  This
    request is the one handed to the client when the call retrieves. *)
Theorem request_contents (P : Platform) date out_dir (subset : option Polygon)
    humid_param (LOS overwrite : bool) w t :
  inputs_ok date out_dir subset w = true →
  parsed_date date = Some t →
  ∃ req p,
    prepare date out_dir subset humid_param LOS w = (inr (req, p), w)
    ∧ req !! "product_type" = Some (PyStr "reanalysis")
    ∧ req !! "format" = Some (PyStr "netcdf")
    ∧ req !! "variable" = Some (PyList ["geopotential"; "temperature"; humid_param])
    ∧ req !! "pressure_level"
      = Some (PyList (map Dec.of_Z
          [1; 2; 3; 5; 7; 10; 20; 30; 50; 70; 100; 125; 150; 175; 200; 225; 250;
           300; 350; 400; 450; 500; 550; 600; 650; 700; 750; 775; 800; 825; 850;
           875; 900; 925; 950; 975; 1000]))
    ∧ length era_pressure_lvls = 37%nat
    ∧ req !! "date"
      = Some (PyStr (Dec.pad 4 (year t) +:+ "-" +:+ Dec.pad 2 (month t) +:+ "-"
                     +:+ Dec.pad 2 (day t)))
    ∧ req !! "time" = Some (PyStr (Dec.pad 2 (hour t) +:+ ":00"))
    ∧ (year t < 10000 → 0 ≤ month t < 100 → 0 ≤ day t < 100 → 0 ≤ hour t < 100 →
       String.length (strftime_date t) = 10%nat
       ∧ String.length (strftime_time t) = 5%nat)
    ∧ req !! "area"
      = match subset with
        | Some g =>
            if is_empty g then None
            else
              let '(w0, s0, e0, n0) := bounds g in
              let '(w1, s1, e1, n1) :=
                if LOS then los_expand w0 s0 e0 n0 else (w0, s0, e0, n0) in
              Some (PyStr (str_float n1 +:+ "/" +:+ str_float w1 +:+ "/"
                           +:+ str_float s1 +:+ "/" +:+ str_float e1))
        | None => None
        end
    ∧ ((download_era date out_dir subset humid_param LOS overwrite w).2 = w
       ∨ calls (download_era date out_dir subset humid_param LOS overwrite w).2
         = calls w ++ [mkCall "reanalysis-era5-pressure-levels" req p]).
Proof.
  intros Hok Ht.
  assert (Hv : validate date out_dir subset w = inr t)
    by (apply validate_ok_iff; auto).
  exists (request_of t subset humid_param LOS), (out_fp_of out_dir t subset LOS).
  split; [now rewrite prepare_eq, Hv|].
  rewrite !request_of_lookup by discriminate.
  destruct (base_request_lookup t humid_param)
    as (Hpt & Hfmt & Hvar & Hlv & Hdate & Htime & _).
  repeat (split; [assumption || reflexivity|]).
  split; [|split].
  - intros Hy Hm Hd Hh.
    assert (Hyear : 0 ≤ year t < 10000).
    { unfold inputs_ok, date_ok in Hok. rewrite Ht in Hok.
      repeat (apply andb_prop in Hok; destruct Hok as [Hok ?]).
      match goal with H : ts_ltb _ _ && _ = true |- _ =>
        apply andb_prop in H; destruct H as [_ H]; apply Z.ltb_lt in H end.
      lia. }
    unfold strftime_date, strftime_time. rewrite !length_append.
    rewrite (pad4_width _ Hyear), !pad2_width by assumption. split; reflexivity.
  - rewrite request_of_area. unfold final_bounds.
    destruct subset as [g|]; [|reflexivity]. cbn [truthy].
    destruct (is_empty g); cbn [negb]; [reflexivity|].
    destruct (bounds g) as [[[w0 s0] e0] n0].
    destruct (if LOS then _ else _) as [[[w1 s1] e1] n1]. reflexivity.
  - rewrite download_era_eq, Hv. cbn zeta.
    destruct (negb _ || overwrite); [right|left]; reflexivity.
Qed.

(** The request for the box in the demo world. *)
Lemma request_contents_demo :
  ∃ req p,
    prepare (P := Demo.platform) (DateStr "2020-01-05 07:42") (DirStr "data")
      (Some Demo.box) "relative_humidity" false Demo.world0
    = (inr (req, p), Demo.world0)
    ∧ req !! "variable"
      = Some (PyList ["geopotential"; "temperature"; "relative_humidity"])
    ∧ req !! "date" = Some (PyStr "2020-01-05")
    ∧ req !! "time" = Some (PyStr "07:00")
    ∧ req !! "area" = Some (PyStr "5.0/-10.0/-5.0/10.0").
Proof.
  destruct (request_contents Demo.platform (DateStr "2020-01-05 07:42")
              (DirStr "data") (Some Demo.box) "relative_humidity" false false
              Demo.world0 (mkTimestamp 2020 1 5 7 42 0 0) eq_refl eq_refl)
    as (req & p & Hrun & _ & _ & Hvar & _ & _ & Hdate & Htime & _ & Harea & _).
  exists req, p. repeat split; assumption.
Defined.

(** * Further properties of [download_era] *)

(** ** Comparisons with a NaN *)

Section NanFacts.

Lemma SFcompare_refl_nan (f : spec_float) :
  SFeqb f f = false → f = S754_nan.
Proof.
  unfold SFeqb. destruct f as [s|s| |s m e]; cbn [SFcompare]; try discriminate.
  - destruct s; discriminate.
  - reflexivity.
  - rewrite Z.compare_refl, Pcompare_refl. destruct s; discriminate.
Qed.

Lemma is_nan_spec (x : float) :
  Coord.is_nan x = true → Prim2SF x = S754_nan.
Proof.
  unfold Coord.is_nan. rewrite FloatAxioms.eqb_spec. intros H.
  apply SFcompare_refl_nan. now apply negb_true_iff.
Qed.

(** A NaN is below nothing. *)
Lemma ltb_nan_l (x y : float) :
  Coord.is_nan x = true → PrimFloat.ltb x y = false.
Proof.
  intros H. rewrite ltb_spec, (is_nan_spec x H). reflexivity.
Qed.

(** Nothing is below a NaN. *)
Lemma ltb_nan_r (x y : float) :
  Coord.is_nan y = true → PrimFloat.ltb x y = false.
Proof.
  intros H. rewrite ltb_spec, (is_nan_spec y H). unfold SFltb.
  destruct (Prim2SF x); reflexivity.
Qed.

(** [np.maximum(a, b)] is not below [b]. *)
Lemma np_maximum_not_below (a b : float) :
  PrimFloat.ltb b b = false →
  PrimFloat.ltb (Coord.np_maximum a b) b = false.
Proof.
  intros Hb. unfold Coord.np_maximum.
  destruct (Coord.is_nan a) eqn:Ha; [now apply ltb_nan_l|].
  destruct (Coord.is_nan b) eqn:Hnb; [exact Hb|].
  destruct (PrimFloat.ltb a b) eqn:Hab; assumption.
Qed.

(** [np.minimum(a, b)] is not above [b]. *)
Lemma np_minimum_not_above (a b : float) :
  PrimFloat.ltb b b = false →
  PrimFloat.ltb b (Coord.np_minimum a b) = false.
Proof.
  intros Hb. unfold Coord.np_minimum.
  destruct (Coord.is_nan a) eqn:Ha; [now apply ltb_nan_r|].
  destruct (Coord.is_nan b) eqn:Hnb; [exact Hb|].
  destruct (PrimFloat.ltb b a) eqn:Hab; assumption.
Qed.

End NanFacts.

(** ** The expanded area stays on the globe *)

(** X1. Whatever the bounds are, the block under [if LOS:] yields a west
    that is not below -180, an east that is not above 180, a south that
    is not below -90 and a north that is not above 90. *)
Theorem los_expand_clamped (w s e n : float) :
  PrimFloat.ltb (los_expand w s e n).1.1.1 (-180) = false
  ∧ PrimFloat.ltb (los_expand w s e n).1.1.2 (-90) = false
  ∧ PrimFloat.ltb 180 (los_expand w s e n).1.2 = false
  ∧ PrimFloat.ltb 90 (los_expand w s e n).2 = false.
Proof.
  unfold los_expand. cbn [fst snd]. repeat split.
  - now apply np_maximum_not_below.
  - now apply np_maximum_not_below.
  - now apply np_minimum_not_above.
  - now apply np_minimum_not_above.
Qed.

(** ** Helper equations for the checks *)

Section CheckFacts.

Context {P : Platform}.

(** With the environment and the date in order only the bounds decide. *)
Lemma validate_bounds_only date out_dir subset w t :
  env_ok out_dir w = true →
  parsed_date date = Some t →
  date_ok t w = true →
  validate date out_dir subset w
  = match bounds_failure subset with
    | Some e => inl e
    | None => inr t
    end.
Proof.
  unfold env_ok, date_ok. intros Henv Ht Hdate.
  apply parsed_date_result in Ht.
  apply andb_prop in Henv. destruct Henv as [Henv Hdir].
  apply andb_prop in Henv. destruct Henv as [Hrc Hclient].
  apply andb_prop in Hdate. destruct Hdate as [Hpast Hyear].
  unfold validate. now rewrite Hrc, Hclient, Hdir, Ht, Hpast, Hyear.
Qed.

(** The exceptions of lines 66 to 69 all have the same form. *)
Lemma bounds_failure_shape subset e :
  bounds_failure subset = Some e →
  ∃ which x, e = AssertionError (bound_msg which x).
Proof.
  unfold bounds_failure.
  destruct (if truthy subset then subset else None) as [g|]; [|discriminate].
  destruct (bounds g) as [[[w0 s0] e0] n0].
  repeat case_match; intros [= <-]; eauto.
Qed.

(** Both comparisons of a check fail on a NaN. *)
Lemma strictly_between_nan lo hi x :
  Coord.is_nan x = true → Coord.strictly_between lo hi x = false.
Proof.
  intros Hx. unfold Coord.strictly_between.
  now rewrite (ltb_nan_r lo x Hx).
Qed.

End CheckFacts.

(** ** Bounds that are not numbers *)

(** X2. A subset that is used and has a NaN among its four bounds is
    refused like a bound outside the globe: with the earlier checks
    passing, the call raises the assertion of a bound and leaves the
    world untouched. *)
Theorem nan_bound_refused (P : Platform) date out_dir g humid_param LOS overwrite w t
    (w0 s0 e0 n0 : float) :
  env_ok out_dir w = true →
  parsed_date date = Some t →
  date_ok t w = true →
  is_empty g = false →
  bounds g = (w0, s0, e0, n0) →
  Coord.is_nan w0 || Coord.is_nan s0 || Coord.is_nan e0 || Coord.is_nan n0 = true →
  ∃ which x,
    download_era date out_dir (Some g) humid_param LOS overwrite w
    = (inl (AssertionError (bound_msg which x)), w).
Proof.
  intros Henv Ht Hdate Hempty Hb Hnan.
  assert (Hbad : bounds_ok (Some g) = false).
  { unfold bounds_ok. cbn [truthy]. rewrite Hempty. cbn [negb]. rewrite Hb.
    repeat (apply orb_prop in Hnan; destruct Hnan as [Hnan|Hnan]);
      rewrite (strictly_between_nan _ _ _ Hnan); now rewrite ?andb_false_r. }
  destruct (bounds_failure (Some g)) as [e|] eqn:Hf.
  - destruct (bounds_failure_shape _ _ Hf) as (which & x & ->).
    exists which, x. apply download_era_stopped.
    now rewrite (validate_bounds_only _ _ _ _ t Henv Ht Hdate), Hf.
  - apply bounds_failure_none in Hf. congruence.
Qed.

(** A box whose south bound is a NaN is refused in the demo world. *)
Lemma nan_bound_refused_demo :
  ∃ which x,
    download_era (P := Demo.platform) (DateStr "2020-01-05 07:42") (DirStr "data")
      (Some (mkPolygon false (-10, nan, 10, 5)%float)) "specific_humidity"
      true true Demo.world0
    = (inl (AssertionError (bound_msg (P := Demo.platform) which x)), Demo.world0).
Proof.
  apply (nan_bound_refused Demo.platform (DateStr "2020-01-05 07:42") (DirStr "data")
           (mkPolygon false (-10, nan, 10, 5)%float) "specific_humidity"
           true true Demo.world0 (mkTimestamp 2020 1 5 7 42 0 0)
           (-10)%float nan 10%float 5%float);
    vm_compute; reflexivity.
Defined.

(** ** At most one retrieval *)

(** X3. For every input and in every world, a call either leaves the
    world as it is, or adds exactly one retrieval to the calls made so
    far: of the dataset [reanalysis-era5-pressure-levels], after which
    the files are those the service has left, the clock is unchanged,
    and the call returns the target of that retrieval unless the service
    raises. *)
Theorem at_most_one_retrieval (P : Platform) date out_dir subset humid_param LOS overwrite w :
  (download_era date out_dir subset humid_param LOS overwrite w).2 = w
  ∨ ∃ c,
      calls (download_era date out_dir subset humid_param LOS overwrite w).2
      = calls w ++ [c]
      ∧ call_name c = "reanalysis-era5-pressure-levels"
      ∧ files (download_era date out_dir subset humid_param LOS overwrite w).2
        = (cds_retrieve c (files w)).1
      ∧ now (download_era date out_dir subset humid_param LOS overwrite w).2 = now w
      ∧ ((download_era date out_dir subset humid_param LOS overwrite w).1
         = inr (call_target c)
         ∨ (download_era date out_dir subset humid_param LOS overwrite w).1
           = inl RetrievalError).
Proof.
  rewrite download_era_eq.
  destruct (validate date out_dir subset w) as [e|t]; [left; reflexivity|].
  cbn zeta. destruct (negb _ || overwrite); [|left; reflexivity].
  right. exists (the_call out_dir t subset humid_param LOS).
  cbn [fst snd calls files now the_call call_name call_target].
  repeat split. destruct ((cds_retrieve _ (files w)).2); auto.
Qed.

(** ** The line-of-sight flag and the checks *)

(** X4. The line-of-sight flag has no part in the checks: two runs that
    differ only in it stop at the same exception or both pass, and
    without a subset they build the same request and the same path. *)
Theorem los_flag_unchecked (P : Platform) date out_dir subset humid_param w :
  match (prepare date out_dir subset humid_param true w).1,
        (prepare date out_dir subset humid_param false w).1 with
  | inl e1, inl e2 => e1 = e2
  | inr _, inr _ => True
  | _, _ => False
  end
  ∧ prepare date out_dir None humid_param true w
    = prepare date out_dir None humid_param false w.
Proof.
  rewrite !prepare_eq. cbn [fst]. split.
  - destruct (validate date out_dir subset w); reflexivity.
  - destruct (validate date out_dir None w); reflexivity.
Qed.

(** ** Strings in place of objects *)

(** X5. A date given as a string that [pd.to_datetime] parses is treated
    as the timestamp it parses to, and a directory given as a string as
    the [Path] made of it: the calls give the same result in every
    world. *)
Theorem strings_as_objects (P : Platform) s t dir_s subset humid_param LOS overwrite w :
  to_datetime s = Some t →
  download_era (DateStr s) (DirStr dir_s) subset humid_param LOS overwrite w
  = download_era (DateTs t) (DirPath (Path_of_str dir_s)) subset humid_param LOS
      overwrite w.
Proof.
  intros Hs. rewrite !download_era_eq.
  assert (Hv : validate (DateStr s) (DirStr dir_s) subset w
               = validate (DateTs t) (DirPath (Path_of_str dir_s)) subset w).
  { unfold validate, resolved_dir. cbn [date_result]. now rewrite Hs. }
  rewrite Hv. reflexivity.
Qed.

(** The string of the demo platform and the timestamp it stands for. *)
Lemma strings_as_objects_demo :
  download_era (P := Demo.platform) (DateStr "2020-01-05 07:42") (DirStr "data")
    (Some Demo.box) "specific_humidity" false false Demo.world0
  = download_era (P := Demo.platform) (DateTs (mkTimestamp 2020 1 5 7 42 0 0))
      (DirPath ["/"; "data"]) (Some Demo.box) "specific_humidity" false false
      Demo.world0.
Proof.
  apply (strings_as_objects Demo.platform "2020-01-05 07:42"
           (mkTimestamp 2020 1 5 7 42 0 0) "data" (Some Demo.box)
           "specific_humidity" false false Demo.world0 eq_refl).
Defined.

(** ** Which check speaks first *)

(** X6. Without the credentials file the call raises the assertion of
    line 25, whatever the other arguments are, and leaves the world
    untouched. *)
Theorem credentials_checked_first (P : Platform) date out_dir subset humid_param
    LOS overwrite w :
  rc_path ∉ files w →
  download_era date out_dir subset humid_param LOS overwrite w
  = (inl (AssertionError
            "Must sign up for ERA5 account and save key to .cdsapric file"), w).
Proof.
  intros Hrc. apply download_era_stopped. unfold validate.
  now rewrite (bool_decide_eq_false_2 _ Hrc).
Qed.

(** In a world without files nothing else is looked at. *)
Lemma credentials_checked_first_demo :
  download_era (P := Demo.platform) (DateStr "not a date") (DirStr "nowhere")
    (Some (mkPolygon false (200, 0, 0, 0)%float)) "specific_humidity" true true
    (mkWorld ∅ (mkTimestamp 2024 3 1 12 0 0 0) [])
  = (inl (AssertionError
            "Must sign up for ERA5 account and save key to .cdsapric file"),
     mkWorld ∅ (mkTimestamp 2024 3 1 12 0 0 0) []).
Proof.
  apply (credentials_checked_first Demo.platform).
  refine (bool_decide_eq_false_1 _ _). vm_compute. reflexivity.
Defined.

(** X7. With the credentials file and the client in order, an output
    directory that does not exist after [expanduser] and [resolve]
    makes the call raise the assertion of line 35, whose message prints
    the resolved path, before the date and the subset are looked at; the
    world is untouched. *)
Theorem missing_directory_named (P : Platform) date out_dir subset humid_param
    LOS overwrite w :
  rc_path ∈ files w →
  client_ok w = true →
  resolved_dir out_dir ∉ files w →
  download_era date out_dir subset humid_param LOS overwrite w
  = (inl (AssertionError
            ("Provided directory: " +:+ Pathlib.str (resolved_dir out_dir)
             +:+ " does not exist.")), w).
Proof.
  intros Hrc Hclient Hdir. apply download_era_stopped. unfold validate.
  now rewrite (bool_decide_eq_true_2 _ Hrc), Hclient,
    (bool_decide_eq_false_2 _ Hdir).
Qed.

(** The message for a directory that the demo world does not have. *)
Lemma missing_directory_named_demo :
  download_era (P := Demo.platform) (DateStr "not a date") (DirStr "nowhere")
    None "specific_humidity" false false Demo.world0
  = (inl (AssertionError "Provided directory: /nowhere does not exist."),
     Demo.world0).
Proof.
  apply (missing_directory_named Demo.platform (DateStr "not a date")
           (DirStr "nowhere") None "specific_humidity" false false Demo.world0).
  - refine (bool_decide_eq_true_1 _ _). vm_compute. reflexivity.
  - reflexivity.
  - refine (bool_decide_eq_false_1 _ _). vm_compute. reflexivity.
Defined.

(** X8. With credentials, client and directory in order, a date string
    that [pd.to_datetime] does not parse makes the call raise the
    exception of the parser, before the range of the date and the
    subset are looked at; the world is untouched. *)
Theorem unparsable_date_raises (P : Platform) s out_dir subset humid_param
    LOS overwrite w :
  env_ok out_dir w = true →
  to_datetime s = None →
  download_era (DateStr s) out_dir subset humid_param LOS overwrite w
  = (inl (DateParseError s), w).
Proof.
  unfold env_ok. intros Henv Hs. apply download_era_stopped.
  apply andb_prop in Henv. destruct Henv as [Henv Hdir].
  apply andb_prop in Henv. destruct Henv as [Hrc Hclient].
  unfold validate. cbn [date_result]. now rewrite Hrc, Hclient, Hdir, Hs.
Qed.

(** A string that the demo platform does not parse. *)
Lemma unparsable_date_raises_demo :
  download_era (P := Demo.platform) (DateStr "not a date") (DirStr "data")
    (Some (mkPolygon false (200, 0, 0, 0)%float)) "specific_humidity" false true
    Demo.world0
  = (inl (DateParseError "not a date"), Demo.world0).
Proof.
  apply (unparsable_date_raises Demo.platform "not a date" (DirStr "data")
           (Some (mkPolygon false (200, 0, 0, 0)%float)) "specific_humidity"
           false true Demo.world0);
    reflexivity.
Defined.

(** ** Shape of the returned path *)

(** X9. For inputs that pass the checks the derived path lies directly
    in the resolved directory, its suffix is [.nc], and its stem is
    [ERA5_], the timestamp to the hour and what line 82 has added: the
    dots inside the formatted bounds do not cut the stem short. *)
Theorem output_path_shape (P : Platform) date out_dir subset humid_param LOS w t :
  inputs_ok date out_dir subset w = true →
  parsed_date date = Some t →
  ∃ req p,
    prepare date out_dir subset humid_param LOS w = (inr (req, p), w)
    ∧ List.removelast p = resolved_dir out_dir
    ∧ Pathlib.suffix p = ".nc"
    ∧ Pathlib.stem p
      = "ERA5_" +:+ strftime_iso_hour t +:+ bounds_suffix subset LOS
    ∧ Pathlib.name p = Pathlib.stem p +:+ ".nc".
Proof.
  intros Hok Ht.
  assert (Hv : validate date out_dir subset w = inr t)
    by (apply validate_ok_iff; auto).
  exists (request_of t subset humid_param LOS), (out_fp_of out_dir t subset LOS).
  split; [now rewrite prepare_eq, Hv|].
  set (st := "ERA5_" +:+ strftime_iso_hour t +:+ bounds_suffix subset LOS).
  assert (Hp : out_fp_of out_dir t subset LOS
               = Pathlib.joinpath (resolved_dir out_dir) (st +:+ ".nc")).
  { unfold out_fp_of, st. now rewrite !append_assoc. }
  assert (Hst : st ≠ "") by discriminate.
  rewrite Hp. repeat split.
  - apply removelast_last.
  - now apply suffix_nc.
  - now apply stem_nc.
  - now rewrite name_joinpath, stem_nc.
Qed.

(** The path for the box in the demo world, taken apart. *)
Lemma output_path_shape_demo :
  ∃ req p,
    prepare (P := Demo.platform) (DateStr "2020-01-05 07:42") (DirStr "data")
      (Some Demo.box) "specific_humidity" false Demo.world0
    = (inr (req, p), Demo.world0)
    ∧ List.removelast p = ["/"; "data"]
    ∧ Pathlib.suffix p = ".nc"
    ∧ Pathlib.stem p = "ERA5_2020-01-05T07:00_-10.00_-5.00_10.00_5.00"
    ∧ Pathlib.name p = Pathlib.stem p +:+ ".nc".
Proof.
  apply (output_path_shape Demo.platform (DateStr "2020-01-05 07:42") (DirStr "data")
           (Some Demo.box) "specific_humidity" false Demo.world0
           (mkTimestamp 2020 1 5 7 42 0 0) eq_refl eq_refl).
Defined.

(** ** Keys of the request *)

(** X10. For inputs that pass the checks the request has exactly the six
    keys of line 50, and the key [area] besides exactly when a subset is
    used. *)
Theorem request_keys (P : Platform) date out_dir subset humid_param LOS w t :
  inputs_ok date out_dir subset w = true →
  parsed_date date = Some t →
  ∃ req p,
    prepare date out_dir subset humid_param LOS w = (inr (req, p), w)
    ∧ dom req
      = ({[ "product_type"; "format"; "variable"; "pressure_level"; "date";
            "time" ]} : gset string)
        ∪ (if truthy subset then {[ "area" ]} else ∅).
Proof.
  intros Hok Ht.
  assert (Hv : validate date out_dir subset w = inr t)
    by (apply validate_ok_iff; auto).
  exists (request_of t subset humid_param LOS), (out_fp_of out_dir t subset LOS).
  split; [now rewrite prepare_eq, Hv|].
  assert (Hbase : dom (base_request t humid_param)
                  = ({[ "product_type"; "format"; "variable"; "pressure_level";
                        "date"; "time" ]} : gset string)).
  { unfold base_request. rewrite !dom_insert_L, dom_empty_L. set_solver. }
  unfold request_of, final_bounds. destruct subset as [g|]; cbn [truthy].
  - destruct (is_empty g); cbn [negb].
    + rewrite Hbase. set_solver.
    + destruct (bounds g) as [[[w0 s0] e0] n0].
      destruct (if LOS then _ else _) as [[[w1 s1] e1] n1].
      rewrite dom_insert_L, Hbase. set_solver.
  - rewrite Hbase. set_solver.
Qed.

(** The keys of the request for the box in the demo world. *)
Lemma request_keys_demo :
  ∃ req p,
    prepare (P := Demo.platform) (DateStr "2020-01-05 07:42") (DirStr "data")
      (Some Demo.box) "specific_humidity" true Demo.world0
    = (inr (req, p), Demo.world0)
    ∧ dom req
      = ({[ "product_type"; "format"; "variable"; "pressure_level"; "date";
            "time" ]} : gset string) ∪ {[ "area" ]}.
Proof.
  apply (request_keys Demo.platform (DateStr "2020-01-05 07:42") (DirStr "data")
           (Some Demo.box) "specific_humidity" true Demo.world0
           (mkTimestamp 2020 1 5 7 42 0 0) eq_refl eq_refl).
Defined.

(** ** Reading padded numbers back *)

Section ReadFacts.

Lemma of_N_read (n : N) :
  option_map N.of_uint (NilEmpty.uint_of_string (Dec.of_N n)) = Some n.
Proof.
  unfold Dec.of_N.
  assert (Hnil : N.to_uint n ≠ Decimal.Nil).
  { destruct n; [discriminate | apply DecimalPos.Unsigned.to_uint_nonnil]. }
  replace (NilZero.string_of_uint (N.to_uint n))
    with (NilEmpty.string_of_uint (N.to_uint n))
    by (destruct (N.to_uint n); first [reflexivity | congruence]).
  rewrite NilEmpty.usu. cbn [option_map].
  now rewrite DecimalN.Unsigned.of_to.
Qed.

Lemma zeros_read (k : nat) (s : string) :
  option_map N.of_uint (NilEmpty.uint_of_string (Dec.zeros k +:+ s))
  = option_map N.of_uint (NilEmpty.uint_of_string s).
Proof.
  induction k as [|k IH]; [reflexivity|].
  cbn [Dec.zeros]. rewrite append_cons. cbn [NilEmpty.uint_of_string].
  rewrite <- IH. destruct (NilEmpty.uint_of_string (Dec.zeros k +:+ s)); reflexivity.
Qed.

(** A padded number that is not negative can be read back. *)
Lemma pad_read (k : nat) (z : Z) :
  0 ≤ z →
  option_map N.of_uint (NilEmpty.uint_of_string (Dec.pad k z)) = Some (Z.to_N z).
Proof.
  intros Hz. unfold Dec.pad. rewrite zeros_read.
  destruct z as [|p|p]; [apply of_N_read | apply of_N_read | lia].
Qed.

Lemma pad_inj (k : nat) (a b : Z) :
  0 ≤ a → 0 ≤ b → Dec.pad k a = Dec.pad k b → a = b.
Proof.
  intros Ha Hb Heq.
  assert (H : Some (Z.to_N a) = Some (Z.to_N b))
    by (rewrite <- (pad_read k a Ha), <- (pad_read k b Hb); now rewrite Heq).
  injection H as H. lia.
Qed.

(** Two concatenations with first parts of one length agree part by part. *)
Lemma append_inj_length (a a' b b' : string) :
  String.length a = String.length a' →
  a +:+ b = a' +:+ b' → a = a' ∧ b = b'.
Proof.
  revert a'. induction a as [|c a IH]; intros [|c' a']; cbn [String.length];
    try discriminate.
  - intros _ H. split; [reflexivity | exact H].
  - intros Hlen. rewrite !append_cons. intros [= -> H].
    destruct (IH a' ltac:(lia) H) as [-> ->]. split; reflexivity.
Qed.

(** The timestamp to the hour tells year, month, day and hour. *)
Lemma strftime_iso_hour_inj (t1 t2 : Timestamp) :
  calendar_fields_ok t1 → calendar_fields_ok t2 →
  strftime_iso_hour t1 = strftime_iso_hour t2 →
  year t1 = year t2 ∧ month t1 = month t2 ∧ day t1 = day t2 ∧ hour t1 = hour t2.
Proof.
  intros (Hy1 & Hm1 & Hd1 & Hh1) (Hy2 & Hm2 & Hd2 & Hh2).
  unfold strftime_iso_hour, strftime_date, strftime_time.
  rewrite !append_assoc. intros H.
  apply append_inj_length in H; [|rewrite !pad4_width by lia; reflexivity].
  destruct H as [Hy H]. apply (String.app_inj "-") in H.
  apply append_inj_length in H; [|rewrite !pad2_width by lia; reflexivity].
  destruct H as [Hm H]. apply (String.app_inj "-") in H.
  apply append_inj_length in H; [|rewrite !pad2_width by lia; reflexivity].
  destruct H as [Hd H]. apply (String.app_inj "T") in H.
  apply append_inj_length in H; [|rewrite !pad2_width by lia; reflexivity].
  destruct H as [Hh _].
  apply pad_inj in Hy, Hm, Hd, Hh; lia.
Qed.

End ReadFacts.

(** ** One file per hour *)

(** X11. For a fixed directory, subset and line-of-sight flag, two
    well-formed timestamps that pass the checks derive the same output
    path exactly when they agree on year, month, day and hour: all
    moments of one hour share one file, and moments of different hours
    never do. *)
Theorem same_hour_same_file (P : Platform) out_dir subset humid_param LOS w t1 t2 :
  inputs_ok (DateTs t1) out_dir subset w = true →
  inputs_ok (DateTs t2) out_dir subset w = true →
  calendar_fields_ok t1 →
  calendar_fields_ok t2 →
  path_result (prepare (DateTs t1) out_dir subset humid_param LOS w).1
  = path_result (prepare (DateTs t2) out_dir subset humid_param LOS w).1
  ↔ year t1 = year t2 ∧ month t1 = month t2 ∧ day t1 = day t2 ∧ hour t1 = hour t2.
Proof.
  intros Hok1 Hok2 Hc1 Hc2.
  assert (Hv1 : validate (DateTs t1) out_dir subset w = inr t1)
    by (apply validate_ok_iff; auto).
  assert (Hv2 : validate (DateTs t2) out_dir subset w = inr t2)
    by (apply validate_ok_iff; auto).
  rewrite !prepare_eq, Hv1, Hv2. cbn [fst path_result]. unfold out_fp_of.
  split.
  - intros [= H]. apply app_inj_tail in H. destruct H as [_ H].
    apply String.app_inj in H.
    apply append_inj_length in H.
    + destruct H as [H _]. now apply strftime_iso_hour_inj.
    + destruct Hc1 as (? & ? & ? & ?), Hc2 as (? & ? & ? & ?).
      unfold strftime_iso_hour, strftime_date, strftime_time.
      rewrite !length_append, !pad4_width, !pad2_width by lia. reflexivity.
  - intros (Hy & Hm & Hd & Hh).
    unfold strftime_iso_hour, strftime_date, strftime_time.
    now rewrite Hy, Hm, Hd, Hh.
Qed.

(** 07:10 and 07:50 of one day share the file in the demo world. *)
Lemma same_hour_same_file_demo :
  path_result
    (prepare (P := Demo.platform) (DateTs (mkTimestamp 2020 1 5 7 10 0 0))
       (DirStr "data") (Some Demo.box) "specific_humidity" false Demo.world0).1
  = path_result
      (prepare (P := Demo.platform) (DateTs (mkTimestamp 2020 1 5 7 50 0 0))
         (DirStr "data") (Some Demo.box) "specific_humidity" false Demo.world0).1.
Proof.
  apply (same_hour_same_file Demo.platform (DirStr "data") (Some Demo.box)
           "specific_humidity" false Demo.world0
           (mkTimestamp 2020 1 5 7 10 0 0) (mkTimestamp 2020 1 5 7 50 0 0)
           eq_refl eq_refl).
  - unfold calendar_fields_ok. cbn. lia.
  - unfold calendar_fields_ok. cbn. lia.
  - cbn. auto.
Defined.

(** ** What the cache does not look at *)

(** X12. When the derived file exists and [overwrite] is false, the call
    returns its path and retrieves nothing whatever the humidity
    parameter is: a file retrieved for one humidity variable is handed
    back for any other. *)
Theorem existing_file_serves_any_humidity (P : Platform) date out_dir subset
    h1 h2 LOS w p :
  path_result (prepare date out_dir subset h1 LOS w).1 = inr p →
  p ∈ files w →
  download_era date out_dir subset h1 LOS false w = (inr p, w)
  ∧ download_era date out_dir subset h2 LOS false w = (inr p, w).
Proof.
  rewrite prepare_eq. cbn [fst]. intros Hp Hin.
  rewrite !download_era_eq.
  destruct (validate date out_dir subset w) as [e|t]; [discriminate|].
  cbn [path_result] in Hp. injection Hp as <-. cbn zeta.
  now rewrite (bool_decide_eq_true_2 _ Hin).
Qed.

(** A file retrieved for the specific humidity is returned when the
    relative humidity is asked for. *)
Lemma existing_file_serves_any_humidity_demo :
  let w1 :=
    mkWorld {[ Demo.rc; Demo.data; ["/"; "data"; "ERA5_2020-01-05T07:00.nc"] ]}
      (mkTimestamp 2024 3 1 12 0 0 0) [] in
  download_era (P := Demo.platform) (DateStr "2020-01-05 07:42") (DirStr "data")
    None "specific_humidity" false false w1
  = (inr ["/"; "data"; "ERA5_2020-01-05T07:00.nc"], w1)
  ∧ download_era (P := Demo.platform) (DateStr "2020-01-05 07:42") (DirStr "data")
      None "relative_humidity" false false w1
    = (inr ["/"; "data"; "ERA5_2020-01-05T07:00.nc"], w1).
Proof.
  apply (existing_file_serves_any_humidity Demo.platform
           (DateStr "2020-01-05 07:42") (DirStr "data") None
           "specific_humidity" "relative_humidity" false).
  - vm_compute. reflexivity.
  - refine (bool_decide_eq_true_1 _ _). vm_compute. reflexivity.
Defined.

(** ** Failures of the service *)

(** X13. When the call retrieves and the service raises, the exception
    reaches the caller as it is: the retrieval stays recorded and the
    files are left as the service has left them, nothing is cleaned up
    and nothing is tried again. *)
Theorem service_failure_propagates (P : Platform) date out_dir subset humid_param
    LOS overwrite w t :
  inputs_ok date out_dir subset w = true →
  parsed_date date = Some t →
  out_fp_of out_dir t subset LOS ∉ files w ∨ overwrite = true →
  (cds_retrieve (the_call out_dir t subset humid_param LOS) (files w)).2 = false →
  download_era date out_dir subset humid_param LOS overwrite w
  = (inl RetrievalError,
     mkWorld (cds_retrieve (the_call out_dir t subset humid_param LOS) (files w)).1
       (now w) (calls w ++ [the_call out_dir t subset humid_param LOS])).
Proof.
  intros Hok Ht Hcond Hfail.
  assert (Hv : validate date out_dir subset w = inr t)
    by (apply validate_ok_iff; auto).
  rewrite download_era_eq, Hv. cbn zeta. rewrite Hfail.
  replace (negb (bool_decide (out_fp_of out_dir t subset LOS ∈ files w)) || overwrite)
    with true; [reflexivity|].
  symmetry. destruct Hcond as [Hmiss| ->]; [|apply orb_true_r].
  now rewrite (bool_decide_eq_false_2 _ Hmiss).
Qed.

(** With the service out of reach the call raises, and the demo world
    has one retrieval on record and no new file. *)
Lemma service_failure_propagates_demo :
  download_era (P := Offline.platform) (DateStr "2020-01-05 07:42") (DirStr "data")
    None "specific_humidity" false true Demo.world0
  = (inl RetrievalError,
     mkWorld (files Demo.world0) (now Demo.world0)
       [mkCall "reanalysis-era5-pressure-levels"
          (request_of (P := Offline.platform) (mkTimestamp 2020 1 5 7 42 0 0) None
             "specific_humidity" false)
          ["/"; "data"; "ERA5_2020-01-05T07:00.nc"]]).
Proof.
  apply (service_failure_propagates Offline.platform (DateStr "2020-01-05 07:42")
           (DirStr "data") None "specific_humidity" false true Demo.world0
           (mkTimestamp 2020 1 5 7 42 0 0) eq_refl eq_refl).
  - right. reflexivity.
  - reflexivity.
Defined.
